(** * Library management: the catalog operations and their storage

    A shallow embedding of [Librarymanagement.py].  The program is a
    Streamlit script: every user interaction runs [main] once, which
    reads the book table from [library_books.csv], runs the operation
    chosen in the menu on it and writes the table back.

    Modelling choices, all written out below:
    - text is a [string] of ASCII characters;
    - a DataFrame is the list of its rows, in index order; a cell of a
      text column holds a Python value ([str], [int] or NaN), because
      what [pd.read_csv] gives back is not always the [str] that was
      written; a cell of the date column is a [datetime.date] or a
      pandas Timestamp, which [to_csv] spells differently; the
      quantity column is the int64 column [read_csv] returns, whose
      sum wraps at 64 bits;
    - the widgets' values, the button states and today's date are the
      inputs of a run; the file and the messages on the page are its
      state, threaded through a small state-and-exception monad;
    - the library calls whose behaviour the program depends on
      ([str.contains] and [re], [read_csv]'s column types, [mode]) are
      given on a stated fragment; outside it a computation ends in
      [Unmodelled], and no statement below rests on that outcome. *)

From Stdlib Require Import List String Ascii ZArith Bool Lia Arith.
From Stdlib Require Import DecimalString DecimalZ Permutation Finite.
Import ListNotations.

Local Open Scope string_scope.
Local Open Scope Z_scope.

(** ** Text *)

Module Text.

Definition is_upper (c : ascii) : bool :=
  let n := nat_of_ascii c in (65 <=? n)%nat && (n <=? 90)%nat.

Definition lower_char (c : ascii) : ascii :=
  if is_upper c then ascii_of_nat (nat_of_ascii c + 32) else c.

(** [str.lower()] on ASCII text. *)
Fixpoint lower (s : string) : string :=
  match s with
  | EmptyString => EmptyString
  | String c s' => String (lower_char c) (lower s')
  end.

(** [needle in hay] on Python strings. *)
Fixpoint contains (needle hay : string) : bool :=
  prefix needle hay ||
  match hay with
  | EmptyString => false
  | String _ hay' => contains needle hay'
  end.

Definition is_empty (s : string) : bool :=
  match s with EmptyString => true | _ => false end.

Fixpoint mem (c : ascii) (s : string) : bool :=
  match s with
  | EmptyString => false
  | String d s' => Ascii.eqb c d || mem c s'
  end.

Fixpoint forall_chars (p : ascii -> bool) (s : string) : bool :=
  match s with
  | EmptyString => true
  | String c s' => p c && forall_chars p s'
  end.

Definition is_digit (c : ascii) : bool :=
  let n := nat_of_ascii c in (48 <=? n)%nat && (n <=? 57)%nat.

(** [str(n)] for an integer. *)
Definition of_Z (n : Z) : string := NilZero.string_of_int (Z.to_int n).

Definition in_list (s : string) (l : list string) : bool :=
  existsb (String.eqb s) l.

End Text.

(** ** The book table *)

(** A calendar day as the date column holds it.  With [time] unset
    it is a [datetime.date], spelled [YYYY-MM-DD]; with [time] set it
    is a pandas Timestamp at midnight of that day, spelled
    [YYYY-MM-DD 00:00:00]. *)
Record date := mkdate { year : Z; month : Z; day : Z; time : bool }.

(** The Timestamp [pd.to_datetime] makes of either spelling. *)
Definition as_timestamp (d : date) : date :=
  mkdate (year d) (month d) (day d) true.

(** A cell of a text column. *)
Inductive value :=
| VStr (s : string)
| VInt (n : Z)
| VNaN.

(** One row of the frame, under the columns
    ['Title', 'Author', 'ISBN', 'Quantity', 'Date Added']. *)
Record row := mkrow {
  Title : value;
  Author : value;
  ISBN : value;
  Quantity : Z;
  DateAdded : date
}.

Definition DataFrame := list row.

(** Elementwise [==] of a cell with another Python value: equal
    strings, equal integers; a string never equals a number and NaN
    equals nothing. *)
Definition py_eq (a b : value) : bool :=
  match a, b with
  | VStr s, VStr t => String.eqb s t
  | VInt n, VInt m => Z.eqb n m
  | _, _ => false
  end.

(** ** The file *)

(** A line of [library_books.csv] after the header: the three text
    fields as written, the quantity as the integer its numeral
    denotes and the date as the calendar day it denotes together with
    its spelling ([time] set when the time of day is written out).
    The comma-separated encoding itself (quoting included) is read
    back as it was written and is not modelled. *)
Record csv_row := mkcsv {
  c_title : string;
  c_author : string;
  c_isbn : string;
  c_quantity : Z;
  c_date : date
}.

Inductive file_state :=
| Missing
| Unreadable (why : string)
| Content (rows : list csv_row).

Inductive exn :=
| ReError (detail : string)
| KeyError (detail : string)
| DateFormatError (position : nat).

Inductive message :=
| st_title (s : string)
| st_subheader (s : string)
| st_error (s : string)
| st_error_of (prefix : string) (e : exn)
| st_success (s : string)
| st_info (s : string)
| st_write (s : string)
| st_write_frame (df : DataFrame)
| st_dataframe (df : DataFrame).

(** What a run acts on: the file, whether the file system refuses
    writes (and with which error text), and the page written so far. *)
Record world := mkworld {
  file : file_state;
  write_error : option string;
  screen : list message
}.

(** ** Computations *)

Inductive outcome (A : Type) :=
| Returned (a : A)
| Raised (e : exn)
| Unmodelled.
Arguments Returned {A} a.
Arguments Raised {A} e.
Arguments Unmodelled {A}.

Definition M (A : Type) := world -> outcome A * world.

Definition ret {A} (a : A) : M A := fun w => (Returned a, w).

Definition bind {A B} (m : M A) (k : A -> M B) : M B :=
  fun w =>
    match m w with
    | (Returned a, w') => k a w'
    | (Raised e, w') => (Raised e, w')
    | (Unmodelled, w') => (Unmodelled, w')
    end.

Definition raise {A} (e : exn) : M A := fun w => (Raised e, w).
Definition unmodelled {A} : M A := fun w => (Unmodelled, w).

Declare Scope m_scope.
Delimit Scope m_scope with m.
Notation "x <- m ;; k" := (bind m (fun x => k))
  (at level 61, m at next level, right associativity) : m_scope.
Notation "m ;;; k" := (bind m (fun _ => k))
  (at level 61, right associativity) : m_scope.
Local Open Scope m_scope.

(** A Streamlit call that puts an element on the page. *)
Definition st (m : message) : M unit :=
  fun w => (Returned tt, mkworld (file w) (write_error w) (screen w ++ [m])).

(** ** Storage *)

Module Csv.

(** How [to_csv] prints a cell: NaN as the empty field. *)
Definition field (v : value) : string :=
  match v with
  | VStr s => s
  | VInt n => Text.of_Z n
  | VNaN => ""
  end.

(** The date column as a run of [main] has it.  A column of
    Timestamps only is the datetime64 column [load_data] returns, or
    what a removal leaves of it: [to_csv] writes its midnights as
    days.  A column with a [datetime.date] in it, which an add
    leaves, holds objects, each written as [str] gives it: a
    Timestamp with its time of day, a [datetime.date] without. *)
Definition datetime64 (df : DataFrame) : bool :=
  forallb (fun r => time (DateAdded r)) df.

Definition spell (uniform : bool) (d : date) : date :=
  if uniform then mkdate (year d) (month d) (day d) false else d.

Definition line (uniform : bool) (r : row) : csv_row :=
  mkcsv (field (Title r)) (field (Author r)) (field (ISBN r))
        (Quantity r) (spell uniform (DateAdded r)).

Definition to_csv (df : DataFrame) : list csv_row :=
  map (line (datetime64 df)) df.

(** The fields [read_csv] takes for a missing value (pandas 2). *)
Definition na_values : list string :=
  [""; "#N/A"; "#N/A N/A"; "#NA"; "-1.#IND"; "-1.#QNAN"; "-NaN"; "-nan";
   "1.#IND"; "1.#QNAN"; "<NA>"; "N/A"; "NA"; "NULL"; "NaN"; "None";
   "n/a"; "nan"; "null"].

Definition bool_words : list string :=
  ["True"; "TRUE"; "true"; "False"; "FALSE"; "false"].

Definition is_na (f : string) : bool := Text.in_list f na_values.

Fixpoint digits_value (acc : Z) (s : string) : Z :=
  match s with
  | EmptyString => acc
  | String c s' =>
      digits_value (10 * acc + Z.of_nat (nat_of_ascii c - 48)) s'
  end.

(** An integer numeral: an optional minus sign and at least one
    digit; its value when it is one. *)
Definition int_numeral (f : string) : option Z :=
  let digits s :=
    if negb (Text.is_empty s) && Text.forall_chars Text.is_digit s
    then Some (digits_value 0 s) else None in
  match f with
  | String "-" s => option_map Z.opp (digits s)
  | _ => digits f
  end.

Definition int64_numeral (f : string) : option Z :=
  match int_numeral f with
  | Some n =>
      if (- 2 ^ 63 <=? n) && (n <? 2 ^ 63) then Some n else None
  | None => None
  end.

(** Characters a field can consist of when the reader takes it for a
    number: digits, signs, the point, the exponent mark, the letters
    of [inf], [infinity] and [nan], and blanks. *)
Definition numeric_alphabet : string :=
  "0123456789+-.eEinftyaINFTYAxX_ " ++ String (ascii_of_nat 9) "".

Definition is_sign (c : ascii) : bool := Text.mem c "+-".

(** In a number a sign stands first, or after the exponent mark or
    a blank. *)
Fixpoint signs_in_place (before : option ascii) (s : string) : bool :=
  match s with
  | EmptyString => true
  | String c s' =>
      (if is_sign c then
         match before with
         | None => true
         | Some b => Text.mem b ("eE " ++ String (ascii_of_nat 9) "")
         end
       else true) && signs_in_place (Some c) s'
  end.

(** An over-approximation of the fields the reader can take for a
    number. *)
Definition maybe_number (f : string) : bool :=
  Text.forall_chars (fun c => Text.mem c numeric_alphabet) f &&
  signs_in_place None f.

(** A field that can only be read as text. *)
Definition plainly_text (f : string) : bool :=
  negb (is_na f) && negb (Text.in_list f bool_words) &&
  negb (maybe_number f).

Fixpoint all_some {A} (l : list (option A)) : option (list A) :=
  match l with
  | [] => Some []
  | Some a :: l' => option_map (cons a) (all_some l')
  | None :: _ => None
  end.

(** The type [read_csv] gives a text column.  A column of integer
    numerals in the 64-bit range becomes integers; a column of
    nothing but missing-value fields becomes NaN throughout; a column
    with a field that can only be text stays text, its missing-value
    fields becoming NaN.  Other columns (floating-point numerals,
    truth values, integers out of range) are outside the fragment:
    [None]. *)
Definition infer_column (fields : list string) : option (list value) :=
  match fields with
  | [] => Some []
  | _ =>
      match all_some (map int64_numeral fields) with
      | Some ns => Some (map VInt ns)
      | None =>
          if forallb is_na fields then Some (map (fun _ => VNaN) fields)
          else if existsb plainly_text fields
          then Some (map (fun f => if is_na f then VNaN else VStr f) fields)
          else None
      end
  end.

Definition in_int64 (n : Z) : bool := (- 2 ^ 63 <=? n) && (n <? 2 ^ 63).

Fixpoint zip_rows (ts aus isbns : list value) (rows : list csv_row)
  : DataFrame :=
  match ts, aus, isbns, rows with
  | t :: ts', a :: aus', i :: isbns', r :: rows' =>
      mkrow t a i (c_quantity r) (c_date r) :: zip_rows ts' aus' isbns' rows'
  | _, _, _, _ => []
  end.

(** [pd.read_csv]: the three text columns typed as above, the
    quantities an int64 column (quantities out of that range are
    outside the fragment), the dates still as they are spelled. *)
Definition read_csv (rows : list csv_row) : option DataFrame :=
  match infer_column (map c_title rows),
        infer_column (map c_author rows),
        infer_column (map c_isbn rows) with
  | Some ts, Some aus, Some isbns =>
      if forallb (fun r => in_int64 (c_quantity r)) rows
      then Some (zip_rows ts aus isbns rows)
      else None
  | _, _, _ => None
  end.

(** Where a column of dates stops being spelled like its first
    entry. *)
Fixpoint first_other (like : bool) (position : nat) (dates : list date)
  : option nat :=
  match dates with
  | [] => None
  | d :: dates' =>
      if Bool.eqb (time d) like then first_other like (S position) dates'
      else Some position
  end.

(** [pd.to_datetime] on the dates read (pandas 2): the format is
    taken from the first entry, and an entry spelled otherwise is a
    ValueError; when all are spelled alike each becomes a
    Timestamp. *)
Definition to_datetime (dates : list date) : nat + list date :=
  match dates with
  | [] => inr []
  | d :: _ =>
      match first_other (time d) 0 dates with
      | Some position => inl position
      | None => inr (map as_timestamp dates)
      end
  end.

Fixpoint set_dates (df : DataFrame) (dates : list date) : DataFrame :=
  match df, dates with
  | r :: df', d :: dates' =>
      mkrow (Title r) (Author r) (ISBN r) (Quantity r) d :: set_dates df' dates'
  | _, _ => []
  end.

End Csv.

(** [load_data()]: the table in the file, its dates made
    Timestamps; the empty table when the file is missing, and, with
    an error on the page, when reading it or converting its dates
    fails.  [st_error_of] stands for [st.error] of the prefix followed
    by the text of the exception. *)
Definition load_data : M DataFrame :=
  fun w =>
    match file w with
    | Missing => ret [] w
    | Unreadable why =>
        (st (st_error ("An error occurred while loading data: " ++ why)) ;;;
         ret []) w
    | Content rows =>
        match Csv.read_csv rows with
        | Some df =>
            match Csv.to_datetime (map DateAdded df) with
            | inr dates => ret (Csv.set_dates df dates) w
            | inl position =>
                (st (st_error_of "An error occurred while loading data: "
                                 (DateFormatError position)) ;;;
                 ret []) w
            end
        | None => unmodelled w
        end
    end.

(** [save_data(df)].  The argument is whatever the caller's variable
    holds: a frame, or [None], on which [df.to_csv] is an
    AttributeError.  Every exception ends as an error on the page. *)
Definition save_data (df : option DataFrame) : M unit :=
  match df with
  | None =>
      st (st_error ("An error occurred while saving data: " ++
                    "'NoneType' object has no attribute 'to_csv'"))
  | Some d =>
      fun w =>
        match write_error w with
        | None =>
            (Returned tt,
             mkworld (Content (Csv.to_csv d)) (write_error w) (screen w))
        | Some why =>
            st (st_error ("An error occurred while saving data: " ++ why)) w
        end
  end.

(** ** Regular expressions

    [Series.str.contains(pat)] compiles [pat] with Python's [re] and
    keeps the entries in which [search] finds a match.  The fragment
    of the pattern syntax given here: ordinary characters, [.], a
    backslash before a character that is neither a letter nor a digit,
    groups, [|] and one of the postfix operators [*], [+], [?].
    Character sets, braces, anchors, backslash-letter escapes, group
    extensions and stacked postfix operators end in [Unsupported]. *)

Module Re.

Inductive regex :=
| Void
| Eps
| Chr (c : ascii)
| Dot
| Seq (r s : regex)
| Alt (r s : regex)
| Star (r : regex).

Inductive compiled :=
| Pattern (r : regex)
| Invalid (detail : string)
| Unsupported.

Definition newline : ascii := ascii_of_nat 10.

Fixpoint nullable (r : regex) : bool :=
  match r with
  | Void | Chr _ | Dot => false
  | Eps | Star _ => true
  | Seq r s => nullable r && nullable s
  | Alt r s => nullable r || nullable s
  end.

(** What is left of [r] after reading [c]. *)
Fixpoint deriv (c : ascii) (r : regex) : regex :=
  match r with
  | Void | Eps => Void
  | Chr d => if Ascii.eqb c d then Eps else Void
  | Dot => if Ascii.eqb c newline then Void else Eps
  | Seq r s =>
      if nullable r then Alt (Seq (deriv c r) s) (deriv c s)
      else Seq (deriv c r) s
  | Alt r s => Alt (deriv c r) (deriv c s)
  | Star r => Seq (deriv c r) (Star r)
  end.

(** [r] matches at the start of [s]. *)
Fixpoint match_here (r : regex) (s : string) : bool :=
  nullable r ||
  match s with
  | EmptyString => false
  | String c s' => match_here (deriv c r) s'
  end.

(** [re.search]: [r] matches somewhere in [s]. *)
Fixpoint search (r : regex) (s : string) : bool :=
  match_here r s ||
  match s with
  | EmptyString => false
  | String _ s' => search r s'
  end.

(** The items of a branch, last one first, as one expression. *)
Definition sequence (items : list regex) : regex :=
  fold_left (fun acc x => Seq x acc) items Eps.

Definition close (branches : option regex) (items : list regex) : regex :=
  match branches with
  | None => sequence items
  | Some b => Alt b (sequence items)
  end.

Definition repeat_op (c : ascii) (r : regex) : regex :=
  if Ascii.eqb c "*" then Star r
  else if Ascii.eqb c "+" then Seq r (Star r)
  else Alt r Eps.

Definition is_alnum (c : ascii) : bool :=
  let n := nat_of_ascii c in
  Text.is_digit c || ((65 <=? n)%nat && (n <=? 90)%nat)
                  || ((97 <=? n)%nat && (n <=? 122)%nat).

(** The parser, left to right.  [stack] holds the enclosing groups,
    [branches] the alternatives of the current group already closed
    by [|], [items] the current branch, and [repeated] says that the
    last item already carries a postfix operator. *)
Fixpoint parse (p : string) (stack : list (option regex * list regex))
         (branches : option regex) (items : list regex) (repeated : bool)
  : compiled :=
  match p with
  | EmptyString =>
      match stack with
      | [] => Pattern (close branches items)
      | _ :: _ => Invalid "missing ), unterminated subpattern"
      end
  | String c p' =>
      if Ascii.eqb c "(" then
        match p' with
        | String "?" _ => Unsupported
        | _ => parse p' ((branches, items) :: stack) None [] false
        end
      else if Ascii.eqb c ")" then
        match stack with
        | [] => Invalid "unbalanced parenthesis"
        | (b, outer) :: stack' =>
            parse p' stack' b (close branches items :: outer) false
        end
      else if Ascii.eqb c "|" then
        parse p' stack (Some (close branches items)) [] false
      else if Text.mem c "*+?" then
        match items with
        | [] => Invalid "nothing to repeat"
        | x :: items' =>
            if repeated then Unsupported
            else parse p' stack branches (repeat_op c x :: items') true
        end
      else if Ascii.eqb c "\" then
        match p' with
        | EmptyString => Invalid "bad escape (end of pattern)"
        | String d p'' =>
            if is_alnum d then Unsupported
            else parse p'' stack branches (Chr d :: items) false
        end
      else if Ascii.eqb c "." then
        parse p' stack branches (Dot :: items) false
      else if Text.mem c "[]{}^$" then Unsupported
      else parse p' stack branches (Chr c :: items) false
  end.

(** [re.compile(pat)]. *)
Definition compile (pat : string) : compiled := parse pat [] None [] false.



End Re.

(** ** Series operations *)

Module Series.

Definition as_text (v : value) : option string :=
  match v with VStr s => Some s | _ => None end.

(** The [.str] accessor, on a column all of whose entries are
    strings (the empty column included); other columns are outside
    the fragment. *)
Definition str (col : list value) : M (list string) :=
  match Csv.all_some (map as_text col) with
  | Some texts => ret texts
  | None => unmodelled
  end.

Definition str_lower (col : list value) : M (list string) :=
  texts <- str col ;; ret (map Text.lower texts).

(** [.str.contains(pat)], with its default [regex=True]: the pattern
    is compiled before any entry is looked at. *)
Definition str_contains (texts : list string) (pat : string)
  : M (list bool) :=
  match Re.compile pat with
  | Re.Pattern r => ret (map (Re.search r) texts)
  | Re.Invalid detail => raise (ReError detail)
  | Re.Unsupported => unmodelled
  end.

(** [a | b] on two boolean columns of one frame. *)
Fixpoint or (a b : list bool) : list bool :=
  match a, b with
  | x :: a', y :: b' => (x || y) :: or a' b'
  | _, _ => []
  end.

(** [df[mask]]. *)
Fixpoint select (df : DataFrame) (mask : list bool) : DataFrame :=
  match df, mask with
  | r :: df', true :: mask' => r :: select df' mask'
  | _ :: df', false :: mask' => select df' mask'
  | _, _ => []
  end.

(** A sum as int64 arithmetic gives it: the integer congruent to
    [z] modulo [2^64] that lies in the signed range. *)
Definition wrap64 (z : Z) : Z := (z + 2 ^ 63) mod 2 ^ 64 - 2 ^ 63.

(** [.sum()] of the quantity column, an int64 column. *)
Definition sum (col : list Z) : Z := wrap64 (fold_right Z.add 0 col).

Definition count (x : string) (xs : list string) : nat :=
  List.length (filter (String.eqb x) xs).

Definition max_count (xs : list string) : nat :=
  fold_right Nat.max 0%nat (map (fun x => count x xs) xs).

Fixpoint insert (x : string) (l : list string) : list string :=
  match l with
  | [] => [x]
  | y :: l' => if String.leb x y then x :: l else y :: insert x l'
  end.

Definition sort (l : list string) : list string :=
  fold_right insert [] l.

(** [.mode()] of a column of strings: the values that occur most
    often, each once, in sorted order. *)
Definition mode (xs : list string) : list string :=
  sort (nodup string_dec
          (filter (fun x => (count x xs =? max_count xs)%nat) xs)).

(** The entries that are not missing: what [mode] looks at. *)
Definition dropna (col : list value) : list value :=
  filter (fun v => match v with VNaN => false | _ => true end) col.

(** [df['Author'].mode()[0]], on a column whose entries are strings
    or missing: missing entries do not count, and when nothing is
    left the mode is empty and its entry 0 a KeyError.  Columns with
    numbers are outside the fragment. *)
Definition mode_first (col : list value) : M string :=
  match Csv.all_some (map as_text (dropna col)) with
  | Some texts =>
      match mode texts with
      | a :: _ => ret a
      | [] => raise (KeyError "0")
      end
  | None => unmodelled
  end.

End Series.

(** ** Catalog operations *)

Definition column {A} (f : row -> A) (df : DataFrame) : list A := map f df.

(** [x in df['ISBN'].values]. *)
Definition isbn_in (isbn : string) (df : DataFrame) : bool :=
  existsb (fun v => py_eq v (VStr isbn)) (column ISBN df).

(** [add_book(df)].  [title], [author], [isbn] and [quantity] are the
    values of the four input widgets, [date_added] is today's date and
    [clicked] says whether the button was pressed in this run.  The
    result is Python's: the new frame, or [None] on every path that
    ends in a bare [return] or falls off the end. *)
Definition add_book (title author isbn : string) (quantity : Z)
           (date_added : date) (clicked : bool) (df : DataFrame)
  : M (option DataFrame) :=
  st (st_subheader "Add New Book") ;;;
  if clicked then
    if Text.is_empty title || Text.is_empty author || Text.is_empty isbn then
      st (st_error "Please fill in all book details.") ;;;
      ret None
    else if isbn_in isbn df then
      st (st_error "Book with this ISBN already exists.") ;;;
      ret None
    else
      let new_book :=
        [mkrow (VStr title) (VStr author) (VStr isbn) quantity date_added] in
      let df := (df ++ new_book)%list in
      save_data (Some df) ;;;
      st (st_success ("Book '" ++ title ++ "' added successfully!")) ;;;
      ret (Some df)
  else ret None.

(** [remove_book(df)]. *)
Definition remove_book (isbn_to_remove : string) (clicked : bool)
           (df : DataFrame) : M (option DataFrame) :=
  st (st_subheader "Remove Book") ;;;
  if clicked then
    if Text.is_empty isbn_to_remove then
      st (st_error "Please enter the ISBN of the book to remove.") ;;;
      ret None
    else if negb (isbn_in isbn_to_remove df) then
      st (st_error "Book with this ISBN does not exist.") ;;;
      ret None
    else
      let df :=
        filter (fun r => negb (py_eq (ISBN r) (VStr isbn_to_remove))) df in
      save_data (Some df) ;;;
      st (st_success "Book removed successfully!") ;;;
      ret (Some df)
  else ret None.

(** [search_book(df)]. *)
Definition search_book (search_term : string) (df : DataFrame) : M unit :=
  st (st_subheader "Search Book") ;;;
  if negb (Text.is_empty search_term) then
    let search_term_lower := Text.lower search_term in
    titles <- Series.str_lower (column Title df) ;;
    in_title <- Series.str_contains titles search_term_lower ;;
    authors <- Series.str_lower (column Author df) ;;
    in_author <- Series.str_contains authors search_term_lower ;;
    let results := Series.select df (Series.or in_title in_author) in
    match results with
    | _ :: _ => st (st_write_frame results)
    | [] => st (st_info "No matching books found.")
    end
  else st (st_info "Please enter a search term.").

(** [display_all_books(df)]. *)
Definition display_all_books (df : DataFrame) : M unit :=
  st (st_subheader "All Books") ;;;
  match df with
  | [] => st (st_info "The library is empty.")
  | _ :: _ => st (st_dataframe df)
  end.

(** [display_statistics(df)]. *)
Definition display_statistics (df : DataFrame) : M unit :=
  st (st_subheader "Library Statistics") ;;;
  match df with
  | [] => st (st_info "No books in the library to display statistics.")
  | _ :: _ =>
      let total_books := Series.sum (column Quantity df) in
      let unique_books := Z.of_nat (List.length df) in
      most_common_author <- Series.mode_first (column Author df) ;;
      st (st_write ("Total Number of Books: " ++ Text.of_Z total_books)) ;;;
      st (st_write ("Number of Unique Books: " ++ Text.of_Z unique_books)) ;;;
      st (st_write ("Most Common Author: " ++ most_common_author))
  end.

(** ** The shell *)

Inductive menu :=
| AddBook
| RemoveBook
| SearchBook
| DisplayAllBooks
| DisplayStatistics
| Exit.

(** The widget values of one run. *)
Record inputs := mkinputs {
  choice : menu;
  title_input : string;
  author_input : string;
  isbn_input : string;
  quantity_input : Z;
  add_clicked : bool;
  remove_input : string;
  remove_clicked : bool;
  search_input : string;
  today : date
}.

(** [main()].  The value returned is the last binding of the local
    [df] (Python's [main] returns nothing): a frame, or [None] when
    the operation's result, assigned to [df], was [None]. *)
Definition main (i : inputs) : M (option DataFrame) :=
  st (st_title "Library Management System") ;;;
  df <- load_data ;;
  df <- match choice i with
        | AddBook =>
            df <- add_book (title_input i) (author_input i) (isbn_input i)
                           (quantity_input i) (today i) (add_clicked i) df ;;
            match df with
            | Some _ => save_data df
            | None => ret tt
            end ;;;
            ret df
        | RemoveBook =>
            df <- remove_book (remove_input i) (remove_clicked i) df ;;
            match df with
            | Some _ => save_data df
            | None => ret tt
            end ;;;
            ret df
        | SearchBook => search_book (search_input i) df ;;; ret (Some df)
        | DisplayAllBooks => display_all_books df ;;; ret (Some df)
        | DisplayStatistics => display_statistics df ;;; ret (Some df)
        | Exit => st (st_write "Exiting the application.") ;;; ret (Some df)
        end ;;
  save_data df ;;;
  ret df.

(** ** Tables of the data model *)

(** A book record as the specification has it: three texts, a
    quantity and the date of entry. *)
Record book := mkbook {
  title : string;
  author : string;
  isbn : string;
  quantity : Z;
  date_added : date
}.

(** The row [add_book] builds for a record. *)
Definition row_of (b : book) : row :=
  mkrow (VStr (title b)) (VStr (author b)) (VStr (isbn b))
        (quantity b) (date_added b).

(** The frame that holds the given records. *)
Definition frame_of (t : list book) : DataFrame := map row_of t.

(** The records as [load_data] returns them: dates as Timestamps. *)
Definition stamped (b : book) : book :=
  mkbook (title b) (author b) (isbn b) (quantity b)
         (as_timestamp (date_added b)).

Definition reloaded (t : list book) : DataFrame := frame_of (map stamped t).

(** The table a computation leaves the caller with: the frame it
    returned, or the one it was given when it returned none. *)
Definition table_after (df : DataFrame) (r : outcome (option DataFrame))
  : DataFrame :=
  match r with
  | Returned (Some df') => df'
  | _ => df
  end.

(** Content of a frame, whatever the in-memory type of its cells. *)
Definition same_content (a b : DataFrame) : Prop :=
  Csv.to_csv a = Csv.to_csv b.

(** ** Notions used in the statements *)

(** The rows [remove_book] keeps. *)
Definition without (isbn : string) (df : DataFrame) : DataFrame :=
  filter (fun r => negb (py_eq (ISBN r) (VStr isbn))) df.

(** The ISBNs of the records, as [to_csv] writes them, are pairwise
    distinct: an ISBN held as the integer 9780441013593 and one held
    as the text "9780441013593" are the same ISBN. *)
Definition unique_isbn (df : DataFrame) : Prop :=
  NoDup (map Csv.field (column ISBN df)).

(** The cells of the ISBN column are pairwise distinct Python
    values. *)
Definition distinct_cells (df : DataFrame) : Prop := NoDup (column ISBN df).

(** The ISBN column holds text only, as in a table built by adds. *)
Definition text_isbns (df : DataFrame) : Prop :=
  Forall (fun v => exists s, v = VStr s) (column ISBN df).



(** An author cell is a text or is missing. *)
Definition text_or_missing (v : value) : Prop :=
  v = VNaN \/ exists s, v = VStr s.

(** The texts among the cells of a column, in order. *)
Definition texts_of (col : list value) : list string :=
  flat_map (fun v => match v with VStr s => [s] | _ => [] end) col.

(** How many records carry the given ISBN. *)
Definition occurrences (isbn : string) (df : DataFrame) : nat :=
  List.length (filter (fun r => py_eq (ISBN r) (VStr isbn)) df).

(** The head of a list is a least element of it. *)
Definition head_least (l : list string) : Prop :=
  match l with
  | [] => True
  | a :: _ => forall b, In b l -> String.leb a b = true
  end.



(** A match as the specification words it: the term is a substring,
    case ignored, of the title or of the author. *)
Definition found (term : string) (b : book) : bool :=
  Text.contains (Text.lower term) (Text.lower (title b)) ||
  Text.contains (Text.lower term) (Text.lower (author b)).

(** [l] is [l'] with some entries left out, the order kept. *)
Inductive subseq {A : Type} : list A -> list A -> Prop :=
| subseq_nil : subseq [] []
| subseq_skip x l l' : subseq l l' -> subseq l (x :: l')
| subseq_keep x l l' : subseq l l' -> subseq (x :: l) (x :: l').

(** Successive adds with the button pressed, one per record, each on
    the table the previous one left. *)
Fixpoint add_each (bs : list book) (df : DataFrame) : M DataFrame :=
  match bs with
  | [] => ret df
  | b :: bs' =>
      r <- add_book (title b) (author b) (isbn b) (quantity b)
                    (date_added b) true df ;;
      add_each bs' (match r with Some df' => df' | None => df end)
  end.

(** The world in which [main] calls [load_data]. *)
Definition titled (w : world) : world :=
  mkworld (file w) (write_error w)
          (screen w ++ [st_title "Library Management System"]).



(** ** Sample runs *)

Module Sample.

Definition day0 : date := mkdate 2024 5 17 false.

Definition dune : book :=
  mkbook "Dune" "Frank Herbert" "0441013593" 3 day0.

Definition hobbit : book :=
  mkbook "The Hobbit" "J.R.R. Tolkien" "978-0261102217" 2 day0.

Definition earthsea : book :=
  mkbook "A Wizard of Earthsea" "Ursula K. Le Guin" "978-0547773742" 1 day0.

(** Dune under its 13-digit ISBN, all digits. *)
Definition numdune : book :=
  mkbook "Dune" "Frank Herbert" "9780441013593" 3 day0.



(** No file yet, writes accepted, an empty page. *)
Definition fresh : world := mkworld Missing None [].

(** The file holds the given records. *)
Definition holding (t : list book) : world :=
  mkworld (Content (Csv.to_csv (frame_of t))) None [].

Definition adding (b : book) : inputs :=
  mkinputs AddBook (title b) (author b) (isbn b) (quantity b) true
           "" false "" (date_added b).

Definition removing (isbn : string) : inputs :=
  mkinputs RemoveBook "" "" "" 1 false isbn true "" day0.

Definition searching (term : string) : inputs :=
  mkinputs SearchBook "" "" "" 1 false "" false term day0.

End Sample.

Import Sample.

(** * Properties *)

Local Open Scope list_scope.

Ltac run :=
  unfold bind, st, ret, raise, unmodelled; simpl.



Lemma save_data_returns (df : option DataFrame) (w : world) :
  fst (save_data df w) = Returned tt.
Proof.
  destruct df as [d|]; unfold save_data, st; simpl; [|reflexivity].
  destruct (write_error w); reflexivity.
Qed.

Lemma load_data_never_raises (w : world) (e : exn) :
  fst (load_data w) <> Raised e.
Proof.
  unfold load_data. destruct (file w) as [|why|rows]; run; try discriminate.
  destruct (Csv.read_csv rows) as [df|]; run; [|discriminate].
  destruct (Csv.to_datetime (map DateAdded df)); run; discriminate.
Qed.

(** ** Membership of an ISBN *)

Lemma py_eq_str (v : value) (s : string) :
  py_eq v (VStr s) = true <-> v = VStr s.
Proof.
  destruct v as [t|n|]; simpl; split; intros H; try discriminate.
  - apply String.eqb_eq in H. now subst.
  - injection H as ->. apply String.eqb_refl.
Qed.

Lemma isbn_in_spec (isbn : string) (df : DataFrame) :
  isbn_in isbn df = true <-> In (VStr isbn) (column ISBN df).
Proof.
  unfold isbn_in. rewrite existsb_exists. split.
  - intros (v & Hv & E). apply py_eq_str in E. now subst.
  - intros H. exists (VStr isbn). split; [assumption|]. now apply py_eq_str.
Qed.

Lemma isbn_in_false (isbn : string) (df : DataFrame) :
  isbn_in isbn df = false <-> ~ In (VStr isbn) (column ISBN df).
Proof.
  rewrite <- isbn_in_spec. destruct (isbn_in isbn df); split; intros H.
  - discriminate.
  - now elim H.
  - discriminate.
  - reflexivity.
Qed.

Lemma empty_text (s : string) : Text.is_empty s = false <-> s <> "".
Proof.
  destruct s; simpl; split; intros H; congruence.
Qed.

Lemma distinct_cells_without (isbn : string) (df : DataFrame) :
  distinct_cells df -> distinct_cells (without isbn df).
Proof.
  unfold distinct_cells, column, without.
  induction df as [|r df IH]; simpl; intros H; [constructor|].
  inversion H as [|? ? Hnotin Hrest]; subst.
  destruct (negb (py_eq (ISBN r) (VStr isbn))); simpl; auto.
  constructor; auto.
  intros Hin. apply Hnotin.
  apply in_map_iff in Hin. destruct Hin as (r' & E & Hr').
  apply filter_In in Hr'. apply in_map_iff. exists r'. tauto.
Qed.

Lemma distinct_cells_append (df : DataFrame) (r : row) :
  distinct_cells df -> ~ In (ISBN r) (column ISBN df) ->
  distinct_cells (df ++ [r])%list.
Proof.
  unfold distinct_cells, column. intros H Hnot.
  rewrite map_app. simpl.
  induction (map ISBN df) as [|v l IH]; simpl.
  - constructor; [intros []|constructor].
  - inversion H; subst. constructor.
    + rewrite in_app_iff. simpl. intros [Hin|[E|[]]]; [contradiction|].
      apply Hnot. left. congruence.
    + apply IH; [assumption|]. intros Hin. apply Hnot. now right.
Qed.

Lemma without_absent (isbn : string) (df : DataFrame) :
  ~ In (VStr isbn) (column ISBN (without isbn df)).
Proof.
  unfold column, without. intros Hin.
  apply in_map_iff in Hin. destruct Hin as (r & E & Hr).
  apply filter_In in Hr. destruct Hr as [_ Hr].
  assert (py_eq (ISBN r) (VStr isbn) = true) as Hp by now apply py_eq_str.
  rewrite Hp in Hr. discriminate.
Qed.

(** ** What the operations leave behind *)

Lemma add_book_result title author isbn quantity date_added df w :
  title <> "" -> author <> "" -> isbn <> "" ->
  ~ In (VStr isbn) (column ISBN df) ->
  let df' := (df ++ [mkrow (VStr title) (VStr author) (VStr isbn)
                           quantity date_added])%list in
  add_book title author isbn quantity date_added true df w =
  (save_data (Some df') ;;;
   st (st_success ("Book '" ++ title ++ "' added successfully!")) ;;;
   ret (Some df'))
    (mkworld (file w) (write_error w)
             (screen w ++ [st_subheader "Add New Book"])).
Proof.
  intros Ht Ha Hi Hnew df'.
  apply empty_text in Ht, Ha, Hi. apply isbn_in_false in Hnew.
  unfold add_book. unfold bind at 1. unfold st at 1.
  rewrite Ht, Ha, Hi, Hnew. reflexivity.
Qed.

Lemma add_book_duplicate title author isbn quantity date_added df w :
  title <> "" -> author <> "" -> isbn <> "" ->
  In (VStr isbn) (column ISBN df) ->
  add_book title author isbn quantity date_added true df w =
  (Returned None,
   mkworld (file w) (write_error w)
           (screen w ++ [st_subheader "Add New Book";
                         st_error "Book with this ISBN already exists."])).
Proof.
  intros Ht Ha Hi Hdup.
  apply empty_text in Ht, Ha, Hi. apply isbn_in_spec in Hdup.
  unfold add_book. run. rewrite Ht, Ha, Hi, Hdup. run.
  now rewrite <- app_assoc.
Qed.

Lemma add_book_table title author isbn quantity date_added clicked df w :
  let r := fst (add_book title author isbn quantity date_added clicked df w) in
  table_after df r = df \/
  (isbn_in isbn df = false /\
   table_after df r =
   (df ++ [mkrow (VStr title) (VStr author) (VStr isbn)
                 quantity date_added])%list).
Proof.
  unfold add_book. run. destruct clicked; run; auto.
  destruct (Text.is_empty title || Text.is_empty author || Text.is_empty isbn);
    run; auto.
  destruct (isbn_in isbn df) eqn:E; run; auto.
  right. split; [reflexivity|].
  unfold save_data. destruct (write_error w); reflexivity.
Qed.

Lemma remove_book_table isbn clicked df w :
  let r := fst (remove_book isbn clicked df w) in
  table_after df r = df \/ table_after df r = without isbn df.
Proof.
  unfold remove_book. run. destruct clicked; run; auto.
  destruct (Text.is_empty isbn); run; auto.
  destruct (isbn_in isbn df); run; auto.
  right. unfold save_data. destruct (write_error w); reflexivity.
Qed.

Lemma search_book_file (term : string) (df : DataFrame) (w : world) :
  file (snd (search_book term df w)) = file w.
Proof.
  unfold search_book, Series.str_lower, Series.str, Series.str_contains.
  run. destruct (Text.is_empty term); run; [reflexivity|].
  destruct (Csv.all_some (map Series.as_text (column Title df))); run;
    [|reflexivity].
  destruct (Re.compile (Text.lower term)); run; try reflexivity.
  destruct (Csv.all_some (map Series.as_text (column Author df))); run;
    [|reflexivity].
  match goal with |- context [match ?x with [] => _ | _ :: _ => _ end] =>
    destruct x end; reflexivity.
Qed.

Lemma display_all_books_file (df : DataFrame) (w : world) :
  file (snd (display_all_books df w)) = file w.
Proof.
  unfold display_all_books. run. destruct df; reflexivity.
Qed.

Lemma display_statistics_file (df : DataFrame) (w : world) :
  file (snd (display_statistics df w)) = file w.
Proof.
  unfold display_statistics, Series.mode_first. run.
  destruct df as [|r df]; [reflexivity|].
  destruct (Csv.all_some _); run; [|reflexivity].
  destruct (Series.mode _); reflexivity.
Qed.

(** ** ISBN uniqueness *)

Lemma text_column_texts (col : list value) :
  Forall (fun v => exists s, v = VStr s) col ->
  col = map VStr (map Csv.field col).
Proof.
  induction 1 as [|v col (s & ->) _ IH]; simpl; [reflexivity|].
  now rewrite <- IH.
Qed.

Lemma text_isbns_unique (df : DataFrame) :
  text_isbns df -> (unique_isbn df <-> distinct_cells df).
Proof.
  unfold text_isbns, unique_isbn, distinct_cells. intros Ht.
  rewrite (text_column_texts _ Ht) at 2. split.
  - apply Finite.Injective_map_NoDup. intros x y E. now injection E.
  - apply NoDup_map_inv.
Qed.

Lemma text_isbns_without (isbn : string) (df : DataFrame) :
  text_isbns df -> text_isbns (without isbn df).
Proof.
  unfold text_isbns, column, without. rewrite !Forall_forall.
  intros H v Hv. apply H. apply in_map_iff in Hv.
  destruct Hv as (r & <- & Hr). apply filter_In in Hr.
  apply in_map. tauto.
Qed.

Lemma text_isbns_append (df : DataFrame) (r : row) (s : string) :
  text_isbns df -> ISBN r = VStr s -> text_isbns (df ++ [r]).
Proof.
  unfold text_isbns, column. intros H E. rewrite map_app.
  apply Forall_app. split; [assumption|]. repeat constructor. eauto.
Qed.

(** On a table whose ISBN column holds text, as every table built by
    adds in memory does, the ISBNs stay pairwise distinct and text
    under [add_book] and [remove_book], whatever the inputs. *)
Lemma isbn_unique_text_tables (df : DataFrame) :
  text_isbns df -> unique_isbn df ->
  (forall title author isbn quantity date_added clicked w,
      let df' :=
        table_after df
          (fst (add_book title author isbn quantity date_added clicked
                         df w)) in
      text_isbns df' /\ unique_isbn df') /\
  (forall isbn clicked w,
      let df' := table_after df (fst (remove_book isbn clicked df w)) in
      text_isbns df' /\ unique_isbn df').
Proof.
  intros Ht Hu. split.
  - intros title author isbn quantity date_added clicked w.
    destruct (add_book_table title author isbn quantity date_added clicked
                             df w) as [E|[Hnew E]];
      cbv zeta in E |- *; rewrite E; [now split|].
    assert (Ht' : text_isbns
                    (df ++ [mkrow (VStr title) (VStr author) (VStr isbn)
                                  quantity date_added]))
      by now apply (text_isbns_append df _ isbn).
    split; [exact Ht'|]. apply text_isbns_unique; [exact Ht'|].
    apply distinct_cells_append; [now apply text_isbns_unique|].
    simpl. now apply isbn_in_false.
  - intros isbn clicked w.
    destruct (remove_book_table isbn clicked df w) as [E|E];
      cbv zeta in E |- *; rewrite E; [now split|].
    pose proof (text_isbns_without isbn df Ht) as Ht'.
    split; [exact Ht'|]. apply text_isbns_unique; [exact Ht'|].
    apply distinct_cells_without. now apply text_isbns_unique.
Qed.

(** ** Adding *)

(** C4.  With a non-empty title, author and ISBN, a quantity of at
    least one and an ISBN not in the table, [add_book] returns the
    table with one record appended at the end, holding the inputs and
    today's date; the records already there are unchanged, the size
    grows by one, [save_data] is run on the new table (the file then
    holds it, unless the write is refused) and success is reported. *)
Theorem add_book_appends title author isbn quantity date_added df w :
  title <> "" -> author <> "" -> isbn <> "" -> 1 <= quantity ->
  ~ In (VStr isbn) (column ISBN df) ->
  let new_book :=
    mkrow (VStr title) (VStr author) (VStr isbn) quantity date_added in
  let r := add_book title author isbn quantity date_added true df w in
  fst r = Returned (Some (df ++ [new_book])%list) /\
  List.length (df ++ [new_book]) = S (List.length df) /\
  firstn (List.length df) (df ++ [new_book]) = df /\
  skipn (List.length df) (df ++ [new_book]) = [new_book] /\
  snd r =
  snd ((save_data (Some (df ++ [new_book])%list) ;;;
        st (st_success ("Book '" ++ title ++ "' added successfully!")))
         (mkworld (file w) (write_error w)
                  (screen w ++ [st_subheader "Add New Book"]))) /\
  (write_error w = None ->
   file (snd r) = Content (Csv.to_csv (df ++ [new_book]))) /\
  In (st_success ("Book '" ++ title ++ "' added successfully!"))
     (screen (snd r)).
Proof.
  intros Ht Ha Hi Hq Hnew new_book r.
  assert (Er : r = _) by
    exact (add_book_result title author isbn quantity date_added df w
                           Ht Ha Hi Hnew).
  cbv zeta in Er. fold new_book in Er.
  repeat split.
  - rewrite Er. unfold bind, save_data, st, ret.
    destruct (write_error w); reflexivity.
  - rewrite length_app. simpl. lia.
  - rewrite firstn_app, Nat.sub_diag, firstn_all. simpl. apply app_nil_r.
  - rewrite skipn_app, Nat.sub_diag, skipn_all. reflexivity.
  - rewrite Er. unfold bind, save_data, st, ret. simpl.
    destruct (write_error w); reflexivity.
  - intros Hw. rewrite Er. unfold bind, save_data, st, ret. simpl.
    rewrite Hw. reflexivity.
  - rewrite Er. unfold bind, save_data, st, ret. simpl.
    destruct (write_error w); simpl; apply in_or_app; right; simpl; auto.
Qed.

(** ** Removing *)

Lemma without_none (isbn : string) (df : DataFrame) :
  occurrences isbn df = 0%nat -> without isbn df = df.
Proof.
  unfold occurrences, without.
  induction df as [|r df IH]; simpl; [reflexivity|].
  destruct (py_eq (ISBN r) (VStr isbn)); simpl; [discriminate|].
  intros H. now rewrite IH.
Qed.

Lemma occurrences_present (isbn : string) (df : DataFrame) :
  occurrences isbn df <> 0%nat -> isbn_in isbn df = true.
Proof.
  unfold occurrences, isbn_in, column.
  induction df as [|r df IH]; simpl; [congruence|].
  destruct (py_eq (ISBN r) (VStr isbn)); simpl; auto.
Qed.

Lemma split_once (isbn : string) (df : DataFrame) :
  occurrences isbn df = 1%nat ->
  exists before gone after,
    df = (before ++ gone :: after)%list /\
    ISBN gone = VStr isbn /\
    without isbn df = (before ++ after)%list.
Proof.
  induction df as [|r df IH]; [discriminate|].
  unfold occurrences, without in *. simpl.
  destruct (py_eq (ISBN r) (VStr isbn)) eqn:E; simpl; intros H.
  - exists [], r, df. repeat split.
    + now apply py_eq_str.
    + simpl. apply without_none. unfold occurrences. lia.
  - destruct (IH H) as (before & gone & after & Hdf & Hgone & Hw).
    exists (r :: before), gone, after. repeat split.
    + simpl. now rewrite <- Hdf.
    + assumption.
    + simpl. now rewrite Hw.
Qed.

(** When a non-empty ISBN is held by exactly one record, as text,
    [remove_book] returns the table without that record: the others
    are kept as they were and in their order, the size drops by one,
    the ISBN is absent from the result, [save_data] is run on it and
    success is reported. *)
Lemma remove_book_removes isbn df w :
  isbn <> "" -> occurrences isbn df = 1%nat ->
  let r := remove_book isbn true df w in
  exists before gone after,
    df = (before ++ gone :: after)%list /\
    ISBN gone = VStr isbn /\
    (before ++ after)%list = without isbn df /\
    fst r = Returned (Some (before ++ after)%list) /\
    S (List.length (before ++ after)) = List.length df /\
    ~ In (VStr isbn) (column ISBN (before ++ after)) /\
    snd r =
    snd ((save_data (Some (before ++ after)%list) ;;;
          st (st_success "Book removed successfully!"))
           (mkworld (file w) (write_error w)
                    (screen w ++ [st_subheader "Remove Book"]))) /\
    (write_error w = None ->
     file (snd r) = Content (Csv.to_csv (before ++ after))) /\
    In (st_success "Book removed successfully!") (screen (snd r)).
Proof.
  intros Hi Hocc r.
  destruct (split_once isbn df Hocc) as (before & gone & after & Hdf & Hg & Hw).
  exists before, gone, after.
  assert (Hin : isbn_in isbn df = true)
    by (apply occurrences_present; lia).
  apply empty_text in Hi.
  assert (Er : r =
               (save_data (Some (before ++ after)%list) ;;;
                st (st_success "Book removed successfully!") ;;;
                ret (Some (before ++ after)%list))
                 (mkworld (file w) (write_error w)
                          (screen w ++ [st_subheader "Remove Book"]))).
  { unfold r, remove_book. unfold bind at 1. unfold st at 1.
    rewrite Hi, Hin. simpl. fold (without isbn df). now rewrite Hw. }
  repeat split; try assumption.
  - now symmetry.
  - rewrite Er. unfold bind, save_data, st, ret.
    destruct (write_error w); reflexivity.
  - rewrite Hdf. rewrite !length_app. simpl. lia.
  - rewrite <- Hw. apply without_absent.
  - rewrite Er. unfold bind, save_data, st, ret. simpl.
    destruct (write_error w); reflexivity.
  - intros Hwr. rewrite Er. unfold bind, save_data, st, ret. simpl.
    rewrite Hwr. reflexivity.
  - rewrite Er. unfold bind, save_data, st, ret. simpl.
    destruct (write_error w); simpl; apply in_or_app; right; simpl; auto.
Qed.

(** C8.  For a non-empty ISBN that is not in the table, [remove_book]
    returns no table, so the table and its size stay as they were,
    does not write the file, and puts the not-found error on the
    page. *)
Theorem remove_book_absent isbn df w :
  isbn <> "" -> ~ In (VStr isbn) (column ISBN df) ->
  let r := remove_book isbn true df w in
  r = (Returned None,
       mkworld (file w) (write_error w)
               (screen w ++ [st_subheader "Remove Book";
                             st_error "Book with this ISBN does not exist."]))
  /\ table_after df (fst r) = df
  /\ List.length (table_after df (fst r)) = List.length df.
Proof.
  intros Hi Habs r.
  apply empty_text in Hi. apply isbn_in_false in Habs.
  assert (Er : r = (Returned None,
       mkworld (file w) (write_error w)
               (screen w ++ [st_subheader "Remove Book";
                             st_error "Book with this ISBN does not exist."]))).
  { unfold r, remove_book. run. rewrite Hi, Habs. run.
    now rewrite <- app_assoc. }
  rewrite Er. auto.
Qed.

(** ** The order on strings *)

Lemma leb_trans (a b c : string) :
  String.leb a b = true -> String.leb b c = true -> String.leb a c = true.
Proof.
  unfold String.leb. revert b c.
  induction a as [|x a IH]; intros [|y b] [|z c]; simpl; auto;
    try discriminate.
  unfold Ascii.compare.
  destruct (N.compare_spec (N_of_ascii x) (N_of_ascii y)) as [Exy|Lxy|Gxy];
    destruct (N.compare_spec (N_of_ascii y) (N_of_ascii z)) as [Eyz|Lyz|Gyz];
    destruct (N.compare_spec (N_of_ascii x) (N_of_ascii z)) as [Exz|Lxz|Gxz];
    try discriminate; auto; try lia.
  apply IH.
Qed.

Lemma leb_refl (a : string) : String.leb a a = true.
Proof.
  destruct (String.leb_total a a); assumption.
Qed.

(** ** Sorting and the mode *)

Lemma insert_In (x y : string) (l : list string) :
  In y (Series.insert x l) <-> y = x \/ In y l.
Proof.
  induction l as [|z l IH]; simpl.
  - intuition.
  - destruct (String.leb x z); simpl; rewrite ?IH; intuition.
Qed.

Lemma sort_In (y : string) (l : list string) :
  In y (Series.sort l) <-> In y l.
Proof.
  unfold Series.sort. induction l as [|x l IH]; simpl; [tauto|].
  rewrite insert_In, IH. intuition.
Qed.

Lemma insert_head_least (x : string) (l : list string) :
  head_least l -> head_least (Series.insert x l).
Proof.
  destruct l as [|z l]; simpl.
  - intros _ b [<-|[]]. apply leb_refl.
  - intros H. destruct (String.leb x z) eqn:E; simpl.
    + intros b [<-|Hb]; [apply leb_refl|].
      apply leb_trans with z; auto.
    + intros b [<-|Hb]; [apply leb_refl|].
      apply insert_In in Hb. destruct Hb as [->|Hb].
      * destruct (String.leb_total z x); congruence.
      * apply H. now right.
Qed.

Lemma sort_head_least (l : list string) : head_least (Series.sort l).
Proof.
  unfold Series.sort. induction l as [|x l IH]; simpl; [exact I|].
  now apply insert_head_least.
Qed.

Lemma fold_max_bound (f : string -> nat) (x : string) (l : list string) :
  In x l -> (f x <= fold_right Nat.max 0 (map f l))%nat.
Proof.
  induction l as [|y l IH]; simpl; [intros []|].
  intros [->|H]; [lia|]. specialize (IH H). lia.
Qed.

Lemma fold_max_attained (f : string -> nat) (l : list string) :
  l <> [] -> exists x, In x l /\ f x = fold_right Nat.max 0%nat (map f l).
Proof.
  induction l as [|y l IH]; [congruence|]. intros _.
  destruct l as [|z l].
  - exists y. simpl. split; [auto|lia].
  - destruct IH as (x & Hx & E); [discriminate|].
    simpl in *.
    destruct (Nat.max_spec (f y)
                (Nat.max (f z) (fold_right Nat.max 0%nat (map f l))))
      as [[_ ->]|[_ ->]].
    + exists x. auto.
    + exists y. auto.
Qed.

Lemma count_le_max (x : string) (xs : list string) :
  In x xs -> (Series.count x xs <= Series.max_count xs)%nat.
Proof.
  apply (fold_max_bound (fun y => Series.count y xs)).
Qed.

Lemma max_count_attained (xs : list string) :
  xs <> [] -> exists x, In x xs /\ Series.count x xs = Series.max_count xs.
Proof.
  apply (fold_max_attained (fun y => Series.count y xs)).
Qed.

Lemma mode_In (x : string) (xs : list string) :
  In x (Series.mode xs) <->
  In x xs /\ Series.count x xs = Series.max_count xs.
Proof.
  unfold Series.mode. rewrite sort_In, nodup_In, filter_In, Nat.eqb_eq.
  tauto.
Qed.

Lemma mode_nonempty (xs : list string) : xs <> [] -> Series.mode xs <> [].
Proof.
  intros H. destruct (max_count_attained xs H) as (x & Hx).
  apply mode_In in Hx. intros E. rewrite E in Hx. destruct Hx.
Qed.

Lemma mode_head (a : string) (rest xs : list string) :
  Series.mode xs = a :: rest ->
  In a xs /\ Series.count a xs = Series.max_count xs /\
  forall b, In b xs -> Series.count b xs = Series.max_count xs ->
            String.leb a b = true.
Proof.
  intros E.
  assert (Ha : In a (Series.mode xs)) by (rewrite E; now left).
  apply mode_In in Ha. destruct Ha as [Ha Hc]. repeat split; auto.
  intros b Hb Hbc.
  assert (Hl : head_least (Series.mode xs)) by apply sort_head_least.
  rewrite E in Hl. unfold head_least in Hl. apply Hl. rewrite <- E.
  apply mode_In. auto.
Qed.

Lemma text_columns (t : list book) :
  Csv.all_some (map Series.as_text (column Title (frame_of t))) =
  Some (map title t) /\
  Csv.all_some (map Series.as_text (column Author (frame_of t))) =
  Some (map author t).
Proof.
  unfold column, frame_of. induction t as [|b t [IHt IHa]]; simpl; auto.
  rewrite IHt, IHa. auto.
Qed.

(** The printed form of an integer denotes that integer. *)
Lemma of_Z_denotes (n : Z) :
  option_map Z.of_int (NilZero.int_of_string (Text.of_Z n)) = Some n.
Proof.
  unfold Text.of_Z. rewrite NilZero.isi.
  - simpl. now rewrite DecimalZ.of_to.
  - intros E. pose proof (DecimalZ.of_to n) as H. rewrite E in H.
    simpl in H. subst n. discriminate E.
  - intros E. pose proof (DecimalZ.of_to n) as H. rewrite E in H.
    simpl in H. subst n. discriminate E.
Qed.

Lemma dropna_texts (col : list value) :
  Forall text_or_missing col ->
  Csv.all_some (map Series.as_text (Series.dropna col)) = Some (texts_of col).
Proof.
  induction 1 as [|v col [->|(s & ->)] _ IH]; simpl; auto.
  now rewrite IH.
Qed.

Lemma texts_of_In (s : string) (col : list value) :
  In s (texts_of col) <-> In (VStr s) col.
Proof.
  unfold texts_of. rewrite in_flat_map. split.
  - intros (v & Hv & Hs). destruct v; simpl in Hs; try tauto.
    destruct Hs as [->|[]]. exact Hv.
  - intros H. exists (VStr s). simpl. auto.
Qed.


(** The page of statistics for a table whose authors are texts or
    missing, with at least one text. *)
Lemma statistics_report (df : DataFrame) (w : world) :
  Forall text_or_missing (column Author df) ->
  (exists s, In (VStr s) (column Author df)) ->
  exists most_common_author rest,
    Series.mode (texts_of (column Author df)) = most_common_author :: rest /\
    display_statistics df w =
    (Returned tt,
     mkworld (file w) (write_error w)
       (screen w ++
        [st_subheader "Library Statistics";
         st_write ("Total Number of Books: " ++
                   Text.of_Z (Series.sum (column Quantity df)));
         st_write ("Number of Unique Books: " ++
                   Text.of_Z (Z.of_nat (List.length df)));
         st_write ("Most Common Author: " ++ most_common_author)])).
Proof.
  intros Hta (s & Hs).
  assert (Hm : Series.mode (texts_of (column Author df)) <> []).
  { apply mode_nonempty. apply texts_of_In in Hs. intros E.
    rewrite E in Hs. destruct Hs. }
  destruct (Series.mode (texts_of (column Author df))) as [|a rest] eqn:E;
    [congruence|].
  exists a, rest. split; [reflexivity|].
  destruct df as [|r df]; [destruct Hs|].
  unfold display_statistics, Series.mode_first.
  unfold bind at 1. unfold st at 1. cbv beta iota.
  rewrite (dropna_texts _ Hta), E. run.
  now rewrite <- !app_assoc.
Qed.

Lemma frame_authors (t : list book) :
  Forall text_or_missing (column Author (frame_of t)) /\
  texts_of (column Author (frame_of t)) = map author t /\
  column Quantity (frame_of t) = map quantity t.
Proof.
  unfold column, frame_of. induction t as [|b t (IH1 & IH2 & IH3)]; simpl.
  - repeat split. constructor.
  - repeat split.
    + constructor; [right; eauto|assumption].
    + now rewrite IH2.
    + now rewrite IH3.
Qed.

Lemma display_statistics_report (t : list book) (w : world) :
  t <> [] ->
  exists most_common_author rest,
    Series.mode (map author t) = most_common_author :: rest /\
    display_statistics (frame_of t) w =
    (Returned tt,
     mkworld (file w) (write_error w)
       (screen w ++
        [st_subheader "Library Statistics";
         st_write ("Total Number of Books: " ++
                   Text.of_Z (Series.sum (map quantity t)));
         st_write ("Number of Unique Books: " ++
                   Text.of_Z (Z.of_nat (List.length t)));
         st_write ("Most Common Author: " ++ most_common_author)])).
Proof.
  intros Hne.
  destruct (frame_authors t) as (Hta & Htexts & Hq).
  destruct (statistics_report (frame_of t) w Hta) as (a & rest & Hm & E).
  { destruct t as [|b t]; [congruence|]. exists (author b). simpl. auto. }
  exists a, rest. rewrite Htexts in Hm. split; [exact Hm|].
  rewrite E, Hq. unfold frame_of. now rewrite length_map.
Qed.


(** ** Statistics *)



(** A file whose only record has an author that reads as a missing
    value: the mode of the author column is empty, its entry 0 is a
    KeyError, and the page of statistics ends with the heading. *)
Example statistics_missing_authors :
  main (mkinputs DisplayStatistics "" "" "" 1 false "" false "" day0)
       (holding [mkbook "Dune" "NA" "978-0441013593" 3 day0]) =
  (Raised (KeyError "0"),
   mkworld (Content [mkcsv "Dune" "NA" "978-0441013593" 3 day0]) None
     [st_title "Library Management System";
      st_subheader "Library Statistics"]).
Proof. reflexivity. Qed.


(** ** Patterns without special characters *)











(** ** Searching *)



(** An empty term gives the enter-a-term message, whatever the table. *)
Lemma search_book_empty_term (df : DataFrame) (w : world) :
  search_book "" df w =
  (Returned tt,
   mkworld (file w) (write_error w)
     (screen w ++ [st_subheader "Search Book";
                   st_info "Please enter a search term."])).
Proof.
  unfold search_book. run. now rewrite <- app_assoc.
Qed.

(** ** What never raises *)

Lemma add_book_returns title author isbn quantity date_added clicked df w :
  exists r,
    fst (add_book title author isbn quantity date_added clicked df w) =
    Returned r.
Proof.
  unfold add_book. run. destruct clicked; run; eauto.
  destruct (_ || _); run; eauto.
  destruct (isbn_in isbn df); run; eauto.
  unfold save_data. destruct (write_error w); simpl; eauto.
Qed.

Lemma remove_book_returns isbn clicked df w :
  exists r, fst (remove_book isbn clicked df w) = Returned r.
Proof.
  unfold remove_book. run. destruct clicked; run; eauto.
  destruct (Text.is_empty isbn); run; eauto.
  destruct (isbn_in isbn df); run; eauto.
  unfold save_data. destruct (write_error w); simpl; eauto.
Qed.

Lemma display_all_books_returns df w :
  fst (display_all_books df w) = Returned tt.
Proof.
  unfold display_all_books. run. destruct df; reflexivity.
Qed.

(** ** Validation failures, operation by operation *)

Lemma add_book_missing_field title author isbn quantity date_added df w :
  title = "" \/ author = "" \/ isbn = "" ->
  add_book title author isbn quantity date_added true df w =
  (Returned None,
   mkworld (file w) (write_error w)
           (screen w ++ [st_subheader "Add New Book";
                         st_error "Please fill in all book details."])).
Proof.
  intros H.
  assert (E : Text.is_empty title || Text.is_empty author ||
              Text.is_empty isbn = true).
  { destruct H as [ -> | [ -> | -> ] ]; simpl; rewrite ?orb_true_r; reflexivity. }
  unfold add_book. run. rewrite E. run. now rewrite <- app_assoc.
Qed.

Lemma remove_book_missing_isbn df w :
  remove_book "" true df w =
  (Returned None,
   mkworld (file w) (write_error w)
           (screen w ++
            [st_subheader "Remove Book";
             st_error "Please enter the ISBN of the book to remove."])).
Proof.
  unfold remove_book. run. now rewrite <- app_assoc.
Qed.

Example search_tolkien :
  search_book "TOLKIEN" (frame_of [dune; hobbit]) fresh =
  (Returned tt,
   mkworld Missing None
     [st_subheader "Search Book"; st_write_frame (frame_of [hobbit])]).
Proof. reflexivity. Qed.

Example statistics_tie :
  snd (display_statistics (frame_of [earthsea; dune; hobbit]) fresh) =
  mkworld Missing None
    [st_subheader "Library Statistics";
     st_write "Total Number of Books: 6";
     st_write "Number of Unique Books: 3";
     st_write "Most Common Author: Frank Herbert"].
Proof. reflexivity. Qed.

Example scenario_add_dune :
  main (adding (mkbook "Dune" "Frank Herbert" "9780441013593" 3 day0)) fresh =
  (Returned
     (Some (frame_of [mkbook "Dune" "Frank Herbert" "9780441013593" 3 day0])),
   mkworld
     (Content [mkcsv "Dune" "Frank Herbert" "9780441013593" 3 day0]) None
     [st_title "Library Management System";
      st_subheader "Add New Book";
      st_success "Book 'Dune' added successfully!"]).
Proof. reflexivity. Qed.

(** The same book added in a second run, after the ISBN column has
    been read back as integers: the duplicate check compares the text
    typed in with integers, finds nothing, and the file ends with the
    ISBN twice. *)
Example duplicate_accepted_after_reload :
  let b := mkbook "Dune" "Frank Herbert" "9780441013593" 3 day0 in
  let w1 := snd (main (adding b) fresh) in
  let w2 := snd (main (adding b) (mkworld (file w1) None [])) in
  file w2 =
  Content [mkcsv "Dune" "Frank Herbert" "9780441013593" 3 (as_timestamp day0);
           mkcsv "Dune" "Frank Herbert" "9780441013593" 3 day0].
Proof. reflexivity. Qed.

(** A title that spells a missing-value marker is read back as NaN. *)
Example missing_value_after_reload :
  let t := [mkbook "NA" "Frank Herbert" "0441013593" 3 day0; hobbit] in
  option_map (column Title) (Csv.read_csv (Csv.to_csv (frame_of t))) =
  Some [VNaN; VStr "The Hobbit"].
Proof. reflexivity. Qed.

(** ** Storage round trip *)














(** C2.  The table holding Dune under the ISBN "0441013593", saved
    and loaded, comes back with the integer 441013593 in the ISBN
    column: the loaded table does not have the content of the saved
    one. *)
Theorem save_then_load_changes_isbn :
  let t := frame_of [dune] in
  let w := snd (save_data (Some t) fresh) in
  file w = Content [mkcsv "Dune" "Frank Herbert" "0441013593" 3 day0] /\
  fst (load_data w) =
  Returned [mkrow (VStr "Dune") (VStr "Frank Herbert") (VInt 441013593)
                  3 (as_timestamp day0)] /\
  forall t', fst (load_data w) = Returned t' -> ~ same_content t t'.
Proof.
  repeat split.
  intros t' E. vm_compute in E. injection E as <-.
  unfold same_content. vm_compute. discriminate.
Qed.

(** ** Validation failures in the shell *)

(** An add with a field left empty, seen from [main]: whatever table
    was loaded, the operation's [None] replaces it in [df], and the
    final [save_data(df)] fails on it. *)
Lemma main_add_missing_field (i : inputs) (w w' : world) (df : DataFrame) :
  choice i = AddBook -> add_clicked i = true ->
  title_input i = "" \/ author_input i = "" \/ isbn_input i = "" ->
  load_data (mkworld (file w) (write_error w)
                     (screen w ++ [st_title "Library Management System"])) =
  (Returned df, w') ->
  main i w =
  (Returned None,
   mkworld (file w') (write_error w')
     (screen w' ++
      [st_subheader "Add New Book";
       st_error "Please fill in all book details.";
       st_error ("An error occurred while saving data: " ++
                 "'NoneType' object has no attribute 'to_csv'")])).
Proof.
  intros Hc Hclick Hempty Hload.
  unfold main. unfold bind at 1. unfold st at 1. cbv beta iota.
  unfold bind at 1. rewrite Hload, Hc, Hclick.
  unfold bind at 1. unfold bind at 1.
  rewrite add_book_missing_field by assumption.
  run. now rewrite <- app_assoc.
Qed.

(** C3.  Runs of [main] on a file holding one book, with an add whose
    title is empty and with a removal of an ISBN that is not there:
    the file is left as it was, but the table [main] holds afterwards
    is [None], not the table it loaded, and the final [save_data]
    puts a second error on the page. *)
Theorem main_validation_failure_drops_table :
  let w := holding [hobbit] in
  fst (load_data w) = Returned (reloaded [hobbit]) /\
  main (adding (mkbook "" "Frank Herbert" "0441013593" 1 day0)) w =
  (Returned None,
   mkworld (file w) None
     [st_title "Library Management System";
      st_subheader "Add New Book";
      st_error "Please fill in all book details.";
      st_error ("An error occurred while saving data: " ++
                "'NoneType' object has no attribute 'to_csv'")]) /\
  main (removing "0441013593") w =
  (Returned None,
   mkworld (file w) None
     [st_title "Library Management System";
      st_subheader "Remove Book";
      st_error "Book with this ISBN does not exist.";
      st_error ("An error occurred while saving data: " ++
                "'NoneType' object has no attribute 'to_csv'")]).
Proof.
  repeat split.
Qed.

(** ** ISBNs read back as integers *)

(** C1.  A file holding Dune under the all-digit ISBN
    "9780441013593", and a run of [main] that adds a book under that
    ISBN.  The loaded table has pairwise distinct ISBNs, but holds
    this one as an integer; the duplicate check compares it with the
    text typed in and finds nothing, so the add is not rejected: the
    table [add_book] returns, and the file written, hold the ISBN
    twice. *)
Theorem reloaded_isbn_added_twice :
  let w := holding [numdune] in
  let r := main (adding numdune) w in
  let df := [mkrow (VStr "Dune") (VStr "Frank Herbert") (VInt 9780441013593)
                   3 (as_timestamp day0)] in
  let df' := df ++ [row_of numdune] in
  file w = Content [mkcsv "Dune" "Frank Herbert" "9780441013593" 3 day0] /\
  fst (load_data w) = Returned df /\
  unique_isbn df /\
  fst (add_book "Dune" "Frank Herbert" "9780441013593" 3 day0 true df fresh) =
  Returned (Some df') /\
  ~ unique_isbn df' /\
  r =
  (Returned (Some df'),
   mkworld
     (Content [mkcsv "Dune" "Frank Herbert" "9780441013593" 3
                     (as_timestamp day0);
               mkcsv "Dune" "Frank Herbert" "9780441013593" 3 day0])
     None
     [st_title "Library Management System";
      st_subheader "Add New Book";
      st_success "Book 'Dune' added successfully!"]).
Proof.
  repeat split.
  - unfold unique_isbn. simpl. repeat constructor. intros [].
  - unfold unique_isbn. vm_compute. intros H.
    inversion H as [|x l Hnotin _]. apply Hnotin. now left.
Qed.

(** C5.  The same file, holding the ISBN "9780441013593" exactly
    once, and a run of [main] that removes that ISBN.  The loaded
    table holds it as an integer, the membership test of
    [remove_book] compares it with the text typed in and finds
    nothing: the not-found error is shown, nothing is removed and the
    file keeps the record. *)
Theorem reloaded_isbn_not_removed :
  let w := holding [numdune] in
  let df := [mkrow (VStr "Dune") (VStr "Frank Herbert") (VInt 9780441013593)
                   3 (as_timestamp day0)] in
  file w = Content [mkcsv "Dune" "Frank Herbert" "9780441013593" 3 day0] /\
  fst (load_data w) = Returned df /\
  map Csv.field (column ISBN df) = ["9780441013593"] /\
  remove_book "9780441013593" true df fresh =
  (Returned None,
   mkworld Missing None
     [st_subheader "Remove Book";
      st_error "Book with this ISBN does not exist."]) /\
  main (removing "9780441013593") w =
  (Returned None,
   mkworld (Content [mkcsv "Dune" "Frank Herbert" "9780441013593" 3 day0])
     None
     [st_title "Library Management System";
      st_subheader "Remove Book";
      st_error "Book with this ISBN does not exist.";
      st_error ("An error occurred while saving data: " ++
                "'NoneType' object has no attribute 'to_csv'")]).
Proof.
  repeat split.
Qed.

(** ** Searching with a pattern *)

(** C6.  The term "D.ne" is a substring, case ignored, of no title
    and no author of the table, yet [search_book] shows Dune: the
    term is used as a regular expression. *)
Theorem search_book_term_is_pattern :
  let t := [dune; hobbit] in
  filter (found "D.ne") t = [] /\
  search_book "D.ne" (frame_of t) fresh =
  (Returned tt,
   mkworld Missing None
     [st_subheader "Search Book"; st_write_frame (frame_of [dune])]).
Proof.
  split; reflexivity.
Qed.

(** C9.  With the search term "(" [search_book] raises [re.error] on
    every table, and nothing in [main] catches it: the run ends with
    the exception. *)
Theorem search_book_raises :
  (forall t w,
      fst (search_book "(" (frame_of t) w) =
      Raised (ReError "missing ), unterminated subpattern")) /\
  fst (main (searching "(") (holding [hobbit])) =
  Raised (ReError "missing ), unterminated subpattern").
Proof.
  split; [|reflexivity].
  intros t w. destruct (text_columns t) as [Ht _].
  unfold search_book, Series.str_lower, Series.str.
  cbn [Text.is_empty negb]. unfold bind at 1. unfold st at 1.
  cbv beta iota. unfold bind at 1. unfold bind at 1.
  rewrite Ht. reflexivity.
Qed.

(** ** The theorems at sample inputs *)

Lemma add_book_appends_witness :
  fst (add_book "Dune" "Frank Herbert" "9780441013593" 3 day0 true [] fresh) =
  Returned
    (Some [mkrow (VStr "Dune") (VStr "Frank Herbert") (VStr "9780441013593")
                 3 day0]) /\
  file (snd (add_book "Dune" "Frank Herbert" "9780441013593" 3 day0 true
                      [] fresh)) =
  Content [mkcsv "Dune" "Frank Herbert" "9780441013593" 3 day0].
Proof.
  destruct (add_book_appends "Dune" "Frank Herbert" "9780441013593" 3 day0
                             [] fresh)
    as (Hr & _ & _ & _ & _ & Hfile & _);
    try discriminate; try lia.
  - intros [].
  - split; [exact Hr|]. apply Hfile. reflexivity.
Defined.

Lemma remove_book_absent_witness :
  fst (remove_book "0441013593" true (frame_of [hobbit]) fresh) =
  Returned None.
Proof.
  destruct (remove_book_absent "0441013593" (frame_of [hobbit]) fresh)
    as (Hr & _).
  - discriminate.
  - simpl. intros [E|[]]. discriminate E.
  - cbv zeta in Hr. now rewrite Hr.
Defined.



(** * Further properties of the operations *)

(** ** Helper facts *)

Lemma add_book_accepts title author isbn quantity date_added df w :
  title <> "" -> author <> "" -> isbn <> "" ->
  ~ In (VStr isbn) (column ISBN df) ->
  exists w',
    add_book title author isbn quantity date_added true df w =
    (Returned (Some (df ++ [mkrow (VStr title) (VStr author) (VStr isbn)
                                  quantity date_added])), w').
Proof.
  intros Ht Ha Hi Hnew.
  rewrite (add_book_result title author isbn quantity date_added df w)
    by assumption.
  unfold bind, save_data, st, ret. cbn [write_error].
  destruct (write_error w); eauto.
Qed.

Lemma remove_book_accepts isbn df w :
  isbn <> "" -> In (VStr isbn) (column ISBN df) ->
  exists w',
    remove_book isbn true df w = (Returned (Some (without isbn df)), w').
Proof.
  intros Hi Hin. apply empty_text in Hi. apply isbn_in_spec in Hin.
  unfold remove_book. unfold bind at 1. unfold st at 1.
  rewrite Hi, Hin. cbn [negb]. fold (without isbn df).
  unfold bind, save_data, st, ret. cbn [write_error].
  destruct (write_error w); eauto.
Qed.

Lemma without_unchanged (isbn : string) (df : DataFrame) :
  ~ In (VStr isbn) (column ISBN df) -> without isbn df = df.
Proof.
  intros H. apply without_none.
  destruct (occurrences isbn df) eqn:E; [reflexivity|].
  exfalso. apply H. apply isbn_in_spec. apply occurrences_present. lia.
Qed.

Lemma without_length (isbn : string) (df : DataFrame) :
  (List.length (without isbn df) + occurrences isbn df)%nat = List.length df.
Proof.
  unfold without, occurrences. induction df as [|r df IH]; [reflexivity|].
  simpl. destruct (py_eq (ISBN r) (VStr isbn)); simpl; lia.
Qed.

Lemma filter_subseq {A} (p : A -> bool) (l : list A) :
  subseq (filter p l) l.
Proof.
  induction l as [|x l IH]; simpl; [constructor|].
  destruct (p x); now constructor.
Qed.

Lemma select_subseq (df : DataFrame) (mask : list bool) :
  subseq (Series.select df mask) df.
Proof.
  revert mask. induction df as [|r df IH]; intros mask.
  - destruct mask as [|[] mask]; constructor.
  - destruct mask as [|[] mask]; simpl.
    + clear IH. constructor. induction df; now constructor.
    + now constructor.
    + now constructor.
Qed.

(** ** Rejections *)

(** X1.  Validation comes before any look at the table.  An add with
    the title, the author or the ISBN left empty is rejected with the
    fill-in message whatever the table holds, also when the ISBN
    typed is already there; a removal with the ISBN left empty is
    rejected with the enter-the-ISBN message.  Neither returns a
    table nor writes the file. *)
Theorem empty_input_rejected_first :
  (forall title author isbn quantity date_added df w,
      title = "" \/ author = "" \/ isbn = "" ->
      add_book title author isbn quantity date_added true df w =
      (Returned None,
       mkworld (file w) (write_error w)
         (screen w ++ [st_subheader "Add New Book";
                       st_error "Please fill in all book details."]))) /\
  (forall df w,
      remove_book "" true df w =
      (Returned None,
       mkworld (file w) (write_error w)
         (screen w ++
          [st_subheader "Remove Book";
           st_error "Please enter the ISBN of the book to remove."]))).
Proof.
  split.
  - intros. now apply add_book_missing_field.
  - intros. apply remove_book_missing_isbn.
Qed.

Lemma empty_input_rejected_first_witness :
  In (VStr "0441013593") (column ISBN (frame_of [dune])) /\
  fst (add_book "" "Frank Herbert" "0441013593" 1 day0 true
                (frame_of [dune]) fresh) = Returned None /\
  screen (snd (add_book "" "Frank Herbert" "0441013593" 1 day0 true
                        (frame_of [dune]) fresh)) =
  [st_subheader "Add New Book"; st_error "Please fill in all book details."].
Proof.
  split; [simpl; auto|].
  rewrite (proj1 empty_input_rejected_first
             "" "Frank Herbert" "0441013593" 1 day0 (frame_of [dune]) fresh)
    by (left; reflexivity).
  split; reflexivity.
Defined.

(** ** How adds and removals compose *)

(** X2.  After an add with complete fields the ISBN is in the table
    the caller is left with, whether the add went through or was
    itself rejected as a duplicate; a further add of that ISBN on
    that table, under any title and author, is rejected as a
    duplicate and writes nothing. *)
Theorem second_add_rejected
        title author isbn quantity date_added
        title2 author2 quantity2 date_added2 df w w2 :
  title <> "" -> author <> "" -> isbn <> "" ->
  title2 <> "" -> author2 <> "" ->
  let df1 :=
    table_after df
      (fst (add_book title author isbn quantity date_added true df w)) in
  In (VStr isbn) (column ISBN df1) /\
  add_book title2 author2 isbn quantity2 date_added2 true df1 w2 =
  (Returned None,
   mkworld (file w2) (write_error w2)
     (screen w2 ++ [st_subheader "Add New Book";
                    st_error "Book with this ISBN already exists."])).
Proof.
  intros Ht Ha Hi Ht2 Ha2 df1.
  assert (Hin : In (VStr isbn) (column ISBN df1)).
  { unfold df1.
    destruct (in_dec (fun a b : value => ltac:(decide equality;
                        [apply string_dec | apply Z.eq_dec]))
                     (VStr isbn) (column ISBN df)) as [Hin|Hnew].
    - rewrite add_book_duplicate by assumption. exact Hin.
    - destruct (add_book_accepts title author isbn quantity date_added df w
                                 Ht Ha Hi Hnew) as (w' & E).
      rewrite E. cbn [fst table_after].
      unfold column. rewrite map_app, in_app_iff. right. simpl. auto. }
  split; [exact Hin|]. now apply add_book_duplicate.
Qed.

Lemma second_add_rejected_witness :
  fst (add_book "Dune Messiah" "Frank Herbert" "0441013593" 1 day0 true
         (table_after []
            (fst (add_book "Dune" "Frank Herbert" "0441013593" 3 day0 true
                           [] fresh)))
         fresh) = Returned None.
Proof.
  destruct (second_add_rejected "Dune" "Frank Herbert" "0441013593" 3 day0
              "Dune Messiah" "Frank Herbert" 1 day0 [] fresh fresh)
    as [_ E]; try discriminate.
  cbv zeta in E. now rewrite E.
Defined.

(** X3.  A removal undoes an add: when a record with a new ISBN has
    been added, removing that ISBN from the resulting table returns
    the table as it was before the add. *)
Theorem add_then_remove title author isbn quantity date_added df w w2 :
  title <> "" -> author <> "" -> isbn <> "" ->
  ~ In (VStr isbn) (column ISBN df) ->
  exists df1,
    fst (add_book title author isbn quantity date_added true df w) =
    Returned (Some df1) /\
    fst (remove_book isbn true df1 w2) = Returned (Some df).
Proof.
  intros Ht Ha Hi Hnew.
  destruct (add_book_accepts title author isbn quantity date_added df w
                             Ht Ha Hi Hnew) as (w' & E).
  eexists. split; [rewrite E; reflexivity|].
  destruct (remove_book_accepts isbn
              (df ++ [mkrow (VStr title) (VStr author) (VStr isbn)
                            quantity date_added]) w2 Hi) as (w2' & E2).
  { unfold column. rewrite map_app, in_app_iff. right. simpl. auto. }
  rewrite E2. cbn [fst]. do 2 f_equal.
  unfold without. rewrite filter_app. fold (without isbn df).
  rewrite without_unchanged by assumption.
  simpl. rewrite String.eqb_refl. simpl. apply app_nil_r.
Qed.

Lemma add_then_remove_witness :
  exists df1,
    fst (add_book "Dune" "Frank Herbert" "0441013593" 3 day0 true
                  (frame_of [hobbit]) fresh) = Returned (Some df1) /\
    fst (remove_book "0441013593" true df1 fresh) =
    Returned (Some (frame_of [hobbit])).
Proof.
  apply (add_then_remove "Dune" "Frank Herbert" "0441013593" 3 day0
                         (frame_of [hobbit]) fresh fresh);
    try discriminate.
  simpl. intros [E|[]]. discriminate E.
Defined.

(** X4.  A removal cannot be repeated: after an ISBN has been
    removed, a second removal of it from the resulting table is
    rejected with the not-found message and writes nothing. *)
Theorem second_remove_not_found isbn df w w2 :
  isbn <> "" -> In (VStr isbn) (column ISBN df) ->
  exists df1,
    fst (remove_book isbn true df w) = Returned (Some df1) /\
    remove_book isbn true df1 w2 =
    (Returned None,
     mkworld (file w2) (write_error w2)
       (screen w2 ++ [st_subheader "Remove Book";
                      st_error "Book with this ISBN does not exist."])).
Proof.
  intros Hi Hin.
  destruct (remove_book_accepts isbn df w Hi Hin) as (w' & E).
  exists (without isbn df). split; [now rewrite E|].
  pose proof (without_absent isbn df) as Habs.
  apply empty_text in Hi. apply isbn_in_false in Habs.
  unfold remove_book. run. rewrite Hi, Habs. run.
  now rewrite <- app_assoc.
Qed.

Lemma second_remove_not_found_witness :
  exists df1,
    fst (remove_book "0441013593" true (frame_of [dune; hobbit]) fresh) =
    Returned (Some df1) /\
    fst (remove_book "0441013593" true df1 fresh) = Returned None.
Proof.
  destruct (second_remove_not_found "0441013593" (frame_of [dune; hobbit])
                                    fresh fresh)
    as (df1 & E1 & E2); [discriminate|simpl; auto|].
  exists df1. split; [exact E1|]. now rewrite E2.
Defined.

(** X5.  A removal takes out every record of the ISBN, however many
    there are: the result has no record of it, keeps exactly the
    records of the other ISBNs in their order, and is shorter by the
    number of records of the ISBN. *)
Theorem remove_book_removes_all isbn df w :
  isbn <> "" -> In (VStr isbn) (column ISBN df) ->
  exists df1,
    fst (remove_book isbn true df w) = Returned (Some df1) /\
    subseq df1 df /\
    (forall r, In r df1 <-> In r df /\ ISBN r <> VStr isbn) /\
    (List.length df1 + occurrences isbn df)%nat = List.length df /\
    (List.length df1 < List.length df)%nat.
Proof.
  intros Hi Hin.
  destruct (remove_book_accepts isbn df w Hi Hin) as (w' & E).
  exists (without isbn df). split; [now rewrite E|].
  split; [apply filter_subseq|]. split; [|split].
  - intros r. unfold without. rewrite filter_In, negb_true_iff.
    rewrite <- not_true_iff_false, py_eq_str. tauto.
  - apply without_length.
  - pose proof (without_length isbn df).
    assert (occurrences isbn df <> 0%nat); [|lia].
    intros E0. apply without_none in E0.
    pose proof (without_absent isbn df) as Habs. rewrite E0 in Habs. tauto.
Qed.

Lemma remove_book_removes_all_witness :
  let twice := frame_of [dune; hobbit; dune] in
  In (VStr "0441013593") (column ISBN twice) /\
  exists df1,
    fst (remove_book "0441013593" true twice fresh) = Returned (Some df1) /\
    (List.length df1 + 2)%nat = 3%nat.
Proof.
  split; [simpl; auto|].
  destruct (remove_book_removes_all "0441013593"
              (frame_of [dune; hobbit; dune]) fresh)
    as (df1 & E & _ & _ & Hlen & _); [discriminate|simpl; auto|].
  exists df1. split; [exact E|exact Hlen].
Defined.

(** X6.  Records with complete fields and pairwise distinct ISBNs,
    none of them in the table, added one after the other: every add
    goes through, the table ends as the old one followed by the new
    records in the order of the adds, and its size is the old size
    plus the number of adds. *)
Theorem add_each_appends (bs : list book) (df : DataFrame) (w : world) :
  Forall (fun b => title b <> "" /\ author b <> "" /\ isbn b <> "") bs ->
  NoDup (map isbn bs) ->
  (forall b, In b bs -> ~ In (VStr (isbn b)) (column ISBN df)) ->
  fst (add_each bs df w) = Returned (df ++ frame_of bs) /\
  List.length (df ++ frame_of bs) = (List.length df + List.length bs)%nat.
Proof.
  intros Hfields Hdistinct Hnew. split.
  - revert df w Hnew.
    induction bs as [|b bs IH]; intros df w Hnew.
    + simpl. now rewrite app_nil_r.
    + inversion Hfields as [|? ? (Ht & Ha & Hi) Hrest]; subst.
      inversion Hdistinct as [|? ? Hb Hd]; subst.
      destruct (add_book_accepts (title b) (author b) (isbn b) (quantity b)
                                 (date_added b) df w Ht Ha Hi)
        as (w' & E); [apply Hnew; now left|].
      cbn [add_each]. unfold bind. rewrite E.
      rewrite IH; try assumption.
      * f_equal. rewrite <- app_assoc. reflexivity.
      * intros b' Hb'. unfold column. rewrite map_app, in_app_iff.
        intros [Hold|[E'|[]]].
        -- apply (Hnew b'); [now right|exact Hold].
        -- simpl in E'. injection E' as E'. apply Hb.
           rewrite E'. now apply in_map.
  - unfold frame_of. now rewrite length_app, length_map.
Qed.

Lemma add_each_appends_witness :
  fst (add_each [dune; hobbit; earthsea] [] fresh) =
  Returned (frame_of [dune; hobbit; earthsea]).
Proof.
  destruct (add_each_appends [dune; hobbit; earthsea] [] fresh)
    as [E _].
  - repeat constructor; discriminate.
  - simpl. repeat constructor; simpl; intuition discriminate.
  - intros b _ [].
  - exact E.
Defined.

(** ** Searching *)



Lemma lower_char_idempotent (c : ascii) :
  Text.lower_char (Text.lower_char c) = Text.lower_char c.
Proof.
  destruct c as [[] [] [] [] [] [] [] []]; reflexivity.
Qed.

Lemma lower_empty (s : string) :
  Text.is_empty (Text.lower s) = Text.is_empty s.
Proof.
  destruct s; reflexivity.
Qed.

(** X8.  The case of the search term does not matter: two terms
    that differ only in the case of their letters give the same
    page, the same outcome and the same file, on every table. *)
Theorem search_book_term_case (term1 term2 : string) (df : DataFrame)
        (w : world) :
  Text.lower term1 = Text.lower term2 ->
  search_book term1 df w = search_book term2 df w.
Proof.
  intros H.
  assert (E : Text.is_empty term1 = Text.is_empty term2).
  { rewrite <- (lower_empty term1), <- (lower_empty term2). now rewrite H. }
  unfold search_book. now rewrite E, H.
Qed.

Lemma search_book_term_case_witness :
  search_book "TOLKIEN" (frame_of [dune; hobbit]) fresh =
  search_book "Tolkien" (frame_of [dune; hobbit]) fresh.
Proof.
  apply (search_book_term_case "TOLKIEN" "Tolkien"). reflexivity.
Defined.

(** X9.  Whatever the term and the table, [search_book] writes
    nothing to the file and adds to the page its heading and at most
    one more element; a table it shows is not empty and consists of
    records of the table given, in their order. *)
Theorem search_book_shows_records (term : string) (df : DataFrame)
        (w : world) :
  let r := search_book term df w in
  file (snd r) = file w /\
  write_error (snd r) = write_error w /\
  exists rest,
    screen (snd r) = screen w ++ st_subheader "Search Book" :: rest /\
    (List.length rest <= 1)%nat /\
    forall results,
      In (st_write_frame results) rest ->
      results <> [] /\ subseq results df.
Proof.
  unfold search_book, Series.str_lower, Series.str, Series.str_contains.
  run.
  assert (Hnone : forall rest : list message,
             rest = [] ->
             (List.length rest <= 1)%nat /\
             forall results,
               In (st_write_frame results) rest ->
               results <> [] /\ subseq results df).
  { intros rest ->. split; [simpl; lia|intros ? []]. }
  destruct (Text.is_empty term); run.
  - repeat split. eexists. split; [now rewrite <- app_assoc|].
    split; [simpl; lia|].
    intros results [E|[]]. discriminate E.
  - destruct (Csv.all_some (map Series.as_text (column Title df))); run;
      [|repeat split; exists []; split; [reflexivity|now apply Hnone]].
    destruct (Re.compile (Text.lower term)); run;
      try (repeat split; exists []; split; [reflexivity|now apply Hnone]).
    destruct (Csv.all_some (map Series.as_text (column Author df))); run;
      [|repeat split; exists []; split; [reflexivity|now apply Hnone]].
    match goal with
    | |- context [Series.select df ?m] =>
        pose proof (select_subseq df m) as Hsub;
        destruct (Series.select df m) as [|x results] eqn:E
    end; cbn [snd file write_error screen].
    + repeat split. eexists. split; [now rewrite <- app_assoc|].
      split; [simpl; lia|].
      intros results [E'|[]]. discriminate E'.
    + repeat split. eexists. split; [now rewrite <- app_assoc|].
      split; [simpl; lia|].
      intros results' [E'|[]]. injection E' as <-.
      split; [discriminate|exact Hsub].
Qed.

(** ** Storage *)



(** A table with dates of both kinds, as an add on a loaded table
    leaves it: the file gets both spellings, and the next
    [load_data] gives the empty table with an error. *)
Example load_after_add_on_loaded :
  let w1 := snd (main (adding dune) (holding [hobbit])) in
  file w1 =
  Content [mkcsv "The Hobbit" "J.R.R. Tolkien" "978-0261102217" 2
                 (as_timestamp day0);
           mkcsv "Dune" "Frank Herbert" "0441013593" 3 day0] /\
  load_data (mkworld (file w1) None []) =
  (Returned [],
   mkworld (file w1) None
     [st_error_of "An error occurred while loading data: "
                  (DateFormatError 1)]).
Proof.
  split; reflexivity.
Qed.

Lemma all_some_total {A} (l : list (option A)) :
  Forall (fun o => o <> None) l -> exists l', Csv.all_some l = Some l'.
Proof.
  induction 1 as [|o l Ho _ (l' & E)]; simpl; [eauto|].
  destruct o as [a|]; [|congruence]. rewrite E. simpl. eauto.
Qed.

Lemma zip_rows_isbn (v : value) (ts aus isbns : list value)
      (rows : list csv_row) :
  In v (column ISBN (Csv.zip_rows ts aus isbns rows)) -> In v isbns.
Proof.
  revert aus isbns rows.
  induction ts as [|t ts IH]; intros [|a aus] [|i isbns] [|r rows];
    simpl; try tauto.
  intros [E|H]; [now left|right]. eapply IH. exact H.
Qed.

Lemma set_dates_isbn (v : value) (df : DataFrame) (dates : list date) :
  In v (column ISBN (Csv.set_dates df dates)) -> In v (column ISBN df).
Proof.
  revert dates. induction df as [|r df IH]; intros [|d dates]; simpl;
    try tauto.
  intros [E|H]; [now left|right]. eapply IH. exact H.
Qed.

(** X11.  A file in which every ISBN is an integer numeral is loaded
    with integers in the ISBN column, and the text typed into the
    form equals none of them: on the loaded table the duplicate
    check finds no ISBN, so every add with complete fields goes
    through, also one whose ISBN is in the file. *)
Theorem numeral_isbns_hide_duplicates (rows : list csv_row) (w : world)
        (df : DataFrame) :
  file w = Content rows ->
  Forall (fun r => Csv.int64_numeral (c_isbn r) <> None) rows ->
  fst (load_data w) = Returned df ->
  (forall isbn, isbn_in isbn df = false) /\
  (forall title author isbn quantity date_added w2,
      title <> "" -> author <> "" -> isbn <> "" ->
      fst (add_book title author isbn quantity date_added true df w2) =
      Returned (Some (df ++ [mkrow (VStr title) (VStr author) (VStr isbn)
                                   quantity date_added]))).
Proof.
  intros Hfile Hnum Hload.
  assert (Hin : forall isbn, isbn_in isbn df = false).
  { intros isbn. apply isbn_in_false. intros Hin.
    unfold load_data in Hload. rewrite Hfile in Hload.
    destruct (Csv.read_csv rows) as [df0|] eqn:Er; [|discriminate Hload].
    assert (Hin0 : In (VStr isbn) (column ISBN df0)).
    { destruct (Csv.to_datetime (map DateAdded df0)) as [position|dates];
        unfold bind, st, ret in Hload; cbn [fst] in Hload;
        injection Hload as <-; [destruct Hin|].
      now apply set_dates_isbn in Hin. }
    clear Hin Hload. unfold Csv.read_csv in Er.
    destruct (Csv.infer_column (map c_title rows)) as [ts|];
      [|discriminate Er].
    destruct (Csv.infer_column (map c_author rows)) as [aus|];
      [|discriminate Er].
    destruct (Csv.infer_column (map c_isbn rows)) as [isbns|] eqn:Ei;
      [|discriminate Er].
    destruct (forallb _ rows); [|discriminate Er].
    injection Er as <-. apply zip_rows_isbn in Hin0.
    unfold Csv.infer_column in Ei.
    destruct (map c_isbn rows) as [|f fs] eqn:Ef.
    - injection Ei as <-. destruct Hin0.
    - destruct (all_some_total (map Csv.int64_numeral (f :: fs)))
        as (ns & Ens).
      { rewrite <- Ef, map_map. apply Forall_map.
        exact Hnum. }
      rewrite Ens in Ei. injection Ei as <-.
      apply in_map_iff in Hin0. destruct Hin0 as (n & E & _).
      discriminate E. }
  split; [exact Hin|].
  intros title author isbn quantity date_added w2 Ht Ha Hi.
  destruct (add_book_accepts title author isbn quantity date_added df w2
                             Ht Ha Hi) as (w' & E).
  - apply isbn_in_false, Hin.
  - now rewrite E.
Qed.

Lemma numeral_isbns_hide_duplicates_witness :
  let b := mkbook "Dune" "Frank Herbert" "9780441013593" 3 day0 in
  exists df,
    fst (load_data (holding [b])) = Returned df /\
    fst (add_book "Dune" "Frank Herbert" "9780441013593" 3 day0 true
                  df fresh) =
    Returned (Some (df ++ [row_of b])).
Proof.
  exists [mkrow (VStr "Dune") (VStr "Frank Herbert") (VInt 9780441013593)
                3 (as_timestamp day0)].
  split; [reflexivity|].
  apply (numeral_isbns_hide_duplicates
           [mkcsv "Dune" "Frank Herbert" "9780441013593" 3 day0]
           (holding [mkbook "Dune" "Frank Herbert" "9780441013593" 3 day0]));
    try reflexivity; try discriminate.
  repeat constructor. discriminate.
Defined.

(** ** Runs of the shell *)

Lemma load_data_world (w : world) :
  file (snd (load_data w)) = file w /\
  write_error (snd (load_data w)) = write_error w.
Proof.
  unfold load_data. destruct (file w) as [|why|rows] eqn:E; run; auto.
  destruct (Csv.read_csv rows) as [df|]; run; auto.
  destruct (Csv.to_datetime (map DateAdded df)); run; auto.
Qed.

Lemma add_book_saved title author isbn quantity date_added df w :
  title <> "" -> author <> "" -> isbn <> "" ->
  ~ In (VStr isbn) (column ISBN df) -> write_error w = None ->
  let df' := df ++ [mkrow (VStr title) (VStr author) (VStr isbn)
                          quantity date_added] in
  add_book title author isbn quantity date_added true df w =
  (Returned (Some df'),
   mkworld (Content (Csv.to_csv df')) None
     (screen w ++ [st_subheader "Add New Book";
                   st_success ("Book '" ++ title ++
                               "' added successfully!")])).
Proof.
  intros Ht Ha Hi Hnew Hw df'.
  rewrite (add_book_result title author isbn quantity date_added df w)
    by assumption.
  unfold bind, save_data, st, ret. cbn [write_error]. rewrite Hw.
  cbn [file write_error screen]. now rewrite <- app_assoc.
Qed.

Lemma remove_book_saved isbn df w :
  isbn <> "" -> In (VStr isbn) (column ISBN df) -> write_error w = None ->
  remove_book isbn true df w =
  (Returned (Some (without isbn df)),
   mkworld (Content (Csv.to_csv (without isbn df))) None
     (screen w ++ [st_subheader "Remove Book";
                   st_success "Book removed successfully!"])).
Proof.
  intros Hi Hin Hw. apply empty_text in Hi. apply isbn_in_spec in Hin.
  unfold remove_book. unfold bind at 1. unfold st at 1.
  rewrite Hi, Hin. cbn [negb]. fold (without isbn df).
  unfold bind, save_data, st, ret. cbn [write_error]. rewrite Hw.
  cbn [file write_error screen]. now rewrite <- app_assoc.
Qed.

Lemma loaded_world (w w' : world) (df : DataFrame) :
  load_data (titled w) = (Returned df, w') ->
  file w' = file w /\ write_error w' = write_error w.
Proof.
  intros H. destruct (load_data_world (titled w)) as [Hf Hw].
  rewrite H in Hf, Hw. auto.
Qed.

(** X12.  A run on the Display All Books page or on Exit writes the
    file anew from the table it loaded, when the write is accepted:
    a missing file is created, and a file that could not be read is
    replaced by the empty table, also on the Display Statistics
    page, with the load error left on the page. *)
Theorem main_rewrites_file (i : inputs) (w : world) :
  write_error w = None ->
  (forall df w',
      choice i = DisplayAllBooks \/ choice i = Exit ->
      load_data (titled w) = (Returned df, w') ->
      fst (main i w) = Returned (Some df) /\
      file (snd (main i w)) = Content (Csv.to_csv df)) /\
  (forall why,
      choice i = DisplayAllBooks \/ choice i = DisplayStatistics \/
      choice i = Exit ->
      file w = Unreadable why ->
      fst (main i w) = Returned (Some []) /\
      file (snd (main i w)) = Content [] /\
      In (st_error ("An error occurred while loading data: " ++ why))
         (screen (snd (main i w)))).
Proof.
  intros Hw. split.
  - intros df w' Hc Hload.
    destruct (loaded_world w w' df Hload) as [_ Hw'].
    rewrite Hw in Hw'.
    assert (E : exists page,
               main i w =
               (Returned (Some df),
                mkworld (Content (Csv.to_csv df)) None page)).
    { unfold main. unfold bind at 1. unfold st at 1. cbv beta iota.
      fold (titled w). unfold bind at 1. rewrite Hload.
      destruct Hc as [-> | ->].
      - unfold display_all_books. destruct df as [|r df];
          unfold bind, st, ret, save_data; cbn [write_error];
          rewrite Hw'; eauto.
      - unfold bind, st, ret, save_data; cbn [write_error];
          rewrite Hw'; eauto. }
    destruct E as (page & ->). split; reflexivity.
  - intros why Hc Hfile.
    assert (E : exists before after,
               main i w =
               (Returned (Some []),
                mkworld (Content []) None
                  (before ++
                   st_error ("An error occurred while loading data: " ++ why)
                   :: after))).
    { unfold main. unfold bind at 1. unfold st at 1. cbv beta iota.
      unfold bind at 1. unfold load_data at 1. cbn [file]. rewrite Hfile.
      destruct Hc as [ -> | [ -> | -> ] ];
        unfold display_all_books, display_statistics;
        unfold bind, st, ret, save_data; cbn [write_error file screen];
        rewrite Hw; cbn [fst snd file screen];
        exists (screen w ++ [st_title "Library Management System"]);
        eexists; rewrite <- !app_assoc; reflexivity. }
    destruct E as (before & after & ->).
    split; [reflexivity|split; [reflexivity|]].
    cbn [snd screen]. rewrite in_app_iff. right. now left.
Qed.

Lemma main_rewrites_file_witness :
  file (snd (main (mkinputs Exit "" "" "" 1 false "" false "" day0)
                  (mkworld (Unreadable "No columns to parse from file")
                           None []))) =
  Content [] /\
  file (snd (main (mkinputs Exit "" "" "" 1 false "" false "" day0) fresh)) =
  Content [].
Proof.
  split.
  - destruct (main_rewrites_file
                (mkinputs Exit "" "" "" 1 false "" false "" day0)
                (mkworld (Unreadable "No columns to parse from file") None [])
                eq_refl) as [_ Hb].
    destruct (Hb "No columns to parse from file"
                 (or_intror (or_intror eq_refl)) eq_refl) as (_ & Hf & _).
    exact Hf.
  - destruct (main_rewrites_file
                (mkinputs Exit "" "" "" 1 false "" false "" day0)
                fresh eq_refl) as [Ha _].
    destruct (Ha [] (titled fresh) (or_intror eq_refl) eq_refl) as [_ Hf].
    exact Hf.
Defined.

(** X13.  A run of [main] with an add that goes through, on a file
    that loads and accepts writes: the run returns the loaded table
    with the new record at the end, the file holds exactly that
    table, and the page shows the heading and the success message
    and no error. *)
Theorem main_add_persists (i : inputs) (w w' : world) (df : DataFrame) :
  choice i = AddBook -> add_clicked i = true ->
  title_input i <> "" -> author_input i <> "" -> isbn_input i <> "" ->
  write_error w = None ->
  load_data (titled w) = (Returned df, w') ->
  ~ In (VStr (isbn_input i)) (column ISBN df) ->
  let df' :=
    df ++ [mkrow (VStr (title_input i)) (VStr (author_input i))
                 (VStr (isbn_input i)) (quantity_input i) (today i)] in
  main i w =
  (Returned (Some df'),
   mkworld (Content (Csv.to_csv df')) None
     (screen w' ++
      [st_subheader "Add New Book";
       st_success ("Book '" ++ title_input i ++ "' added successfully!")])).
Proof.
  intros Hc Hclick Ht Ha Hi Hw Hload Hnew df'.
  destruct (loaded_world w w' df Hload) as [_ Hw'].
  rewrite Hw in Hw'.
  unfold main. unfold bind at 1. unfold st at 1. cbv beta iota.
  fold (titled w). unfold bind at 1. rewrite Hload, Hc, Hclick.
  unfold bind at 1. unfold bind at 1.
  rewrite add_book_saved by assumption.
  reflexivity.
Qed.

Lemma main_add_persists_witness :
  main (adding dune) (holding [hobbit]) =
  (Returned (Some (reloaded [hobbit] ++ frame_of [dune])),
   mkworld (Content (Csv.to_csv (reloaded [hobbit] ++ frame_of [dune]))) None
     [st_title "Library Management System";
      st_subheader "Add New Book";
      st_success "Book 'Dune' added successfully!"]).
Proof.
  apply (main_add_persists (adding dune) (holding [hobbit])
                           (titled (holding [hobbit]))
                           (reloaded [hobbit]));
    try reflexivity; try discriminate.
  simpl. intros [E|[]]. discriminate E.
Defined.

(** X14.  A run of [main] with a removal that goes through, on a
    file that loads and accepts writes: the run returns the loaded
    table without the records of the ISBN, the file holds exactly
    that table, and the page shows the heading and the success
    message and no error. *)
Theorem main_remove_persists (i : inputs) (w w' : world) (df : DataFrame) :
  choice i = RemoveBook -> remove_clicked i = true ->
  remove_input i <> "" ->
  write_error w = None ->
  load_data (titled w) = (Returned df, w') ->
  In (VStr (remove_input i)) (column ISBN df) ->
  main i w =
  (Returned (Some (without (remove_input i) df)),
   mkworld (Content (Csv.to_csv (without (remove_input i) df))) None
     (screen w' ++
      [st_subheader "Remove Book";
       st_success "Book removed successfully!"])).
Proof.
  intros Hc Hclick Hi Hw Hload Hin.
  destruct (loaded_world w w' df Hload) as [_ Hw'].
  rewrite Hw in Hw'.
  unfold main. unfold bind at 1. unfold st at 1. cbv beta iota.
  fold (titled w). unfold bind at 1. rewrite Hload, Hc, Hclick.
  unfold bind at 1. unfold bind at 1.
  rewrite remove_book_saved by assumption.
  reflexivity.
Qed.

Lemma main_remove_persists_witness :
  main (removing "978-0261102217") (holding [hobbit; earthsea]) =
  (Returned (Some (reloaded [earthsea])),
   mkworld (Content (Csv.to_csv (reloaded [earthsea]))) None
     [st_title "Library Management System";
      st_subheader "Remove Book";
      st_success "Book removed successfully!"]).
Proof.
  apply (main_remove_persists (removing "978-0261102217")
                              (holding [hobbit; earthsea])
                              (titled (holding [hobbit; earthsea]))
                              (reloaded [hobbit; earthsea]));
    try reflexivity; try discriminate.
  simpl. auto.
Defined.

(** X15.  A run on the Add Book or Remove Book page in which the
    button is not pressed: the operation returns nothing, [main]
    takes that for its table, and the final [save_data] puts the
    saving error on the page; the file is not written. *)
Theorem main_idle_form (i : inputs) (w w' : world) (df : DataFrame) :
  (choice i = AddBook /\ add_clicked i = false) \/
  (choice i = RemoveBook /\ remove_clicked i = false) ->
  load_data (titled w) = (Returned df, w') ->
  main i w =
  (Returned None,
   mkworld (file w') (write_error w')
     (screen w' ++
      [st_subheader (match choice i with
                     | AddBook => "Add New Book"
                     | _ => "Remove Book"
                     end);
       st_error ("An error occurred while saving data: " ++
                 "'NoneType' object has no attribute 'to_csv'")])) /\
  file w' = file w.
Proof.
  intros Hidle Hload.
  destruct (loaded_world w w' df Hload) as [Hf _].
  split; [|exact Hf].
  unfold main. unfold bind at 1. unfold st at 1. cbv beta iota.
  fold (titled w). unfold bind at 1. rewrite Hload.
  destruct Hidle as [[-> ->]|[-> ->]];
    unfold add_book, remove_book; run; now rewrite <- app_assoc.
Qed.

Lemma main_idle_form_witness :
  main (mkinputs AddBook "" "" "" 1 false "" false "" day0)
       (holding [hobbit]) =
  (Returned None,
   mkworld (Content (Csv.to_csv (frame_of [hobbit]))) None
     [st_title "Library Management System";
      st_subheader "Add New Book";
      st_error ("An error occurred while saving data: " ++
                "'NoneType' object has no attribute 'to_csv'")]).
Proof.
  apply (main_idle_form (mkinputs AddBook "" "" "" 1 false "" false "" day0)
                        (holding [hobbit]) (titled (holding [hobbit]))
                        (reloaded [hobbit])).
  - left. split; reflexivity.
  - reflexivity.
Defined.

(** ** Statistics and the order of the records *)

Lemma count_perm (x : string) (xs ys : list string) :
  Permutation xs ys -> Series.count x xs = Series.count x ys.
Proof.
  unfold Series.count. induction 1 as [|y xs ys _ IH|y z xs|xs ys zs _ IH1 _ IH2];
    simpl.
  - reflexivity.
  - destruct (String.eqb x y); simpl; congruence.
  - destruct (String.eqb x y), (String.eqb x z); reflexivity.
  - congruence.
Qed.

Lemma max_count_le_perm (xs ys : list string) :
  Permutation xs ys -> (Series.max_count xs <= Series.max_count ys)%nat.
Proof.
  intros P. destruct xs as [|x0 xs].
  - unfold Series.max_count. simpl. lia.
  - destruct (max_count_attained (x0 :: xs)) as (x & Hx & E);
      [discriminate|].
    rewrite <- E, (count_perm x _ _ P).
    apply count_le_max. eapply Permutation_in; eassumption.
Qed.

Lemma max_count_perm (xs ys : list string) :
  Permutation xs ys -> Series.max_count xs = Series.max_count ys.
Proof.
  intros P. apply Nat.le_antisymm; apply max_count_le_perm;
    [assumption|now apply Permutation_sym].
Qed.

Lemma sum_perm (xs ys : list Z) :
  Permutation xs ys -> fold_right Z.add 0 xs = fold_right Z.add 0 ys.
Proof.
  induction 1; simpl; lia.
Qed.

(** X16.  The statistics do not depend on the order of the records:
    two tables with the same records in different orders get the
    same page, the most common author included, ties or not. *)
Theorem statistics_order_independent (t t' : list book) (w : world) :
  Permutation t t' ->
  display_statistics (frame_of t) w = display_statistics (frame_of t') w.
Proof.
  intros P.
  destruct t as [|b t].
  { apply Permutation_nil in P. now subst. }
  destruct t' as [|b' t'].
  { apply Permutation_sym, Permutation_nil in P. discriminate P. }
  set (s := b :: t) in *. set (s' := b' :: t') in *.
  destruct (display_statistics_report s w) as (a & rest & Hm & E);
    [discriminate|].
  destruct (display_statistics_report s' w) as (a' & rest' & Hm' & E');
    [discriminate|].
  rewrite E, E'.
  assert (Pa : Permutation (map author s) (map author s'))
    by now apply Permutation_map.
  destruct (mode_head a rest _ Hm) as (Ha & Hc & Hleast).
  destruct (mode_head a' rest' _ Hm') as (Ha' & Hc' & Hleast').
  assert (Eaa : a = a').
  { apply String.leb_antisym.
    - apply Hleast.
      + eapply Permutation_in; [apply Permutation_sym; exact Pa|exact Ha'].
      + rewrite (count_perm a' _ _ Pa), Hc'. symmetry.
        now apply max_count_perm.
    - apply Hleast'.
      + eapply Permutation_in; [exact Pa|exact Ha].
      + rewrite <- (count_perm a _ _ Pa), Hc. now apply max_count_perm. }
  rewrite Eaa.
  unfold Series.sum.
  rewrite (sum_perm (map quantity s) (map quantity s'))
    by now apply Permutation_map.
  now rewrite (Permutation_length P).
Qed.

Lemma statistics_order_independent_witness :
  display_statistics (frame_of [earthsea; dune; hobbit]) fresh =
  display_statistics (frame_of [hobbit; earthsea; dune]) fresh.
Proof.
  apply (statistics_order_independent [earthsea; dune; hobbit]
                                      [hobbit; earthsea; dune]).
  apply Permutation_sym.
  apply (Permutation_cons_append [earthsea; dune] hobbit).
Defined.
